(** * Banking-System-JS: the transaction-and-policy engine

    A shallow embedding of the ledger, interest and security services
    ([src/utils/validators.js], [src/models/accountStore.js],
    [src/services/transactionService.js], [src/services/interestService.js],
    [src/services/securityService.js]) and of the browser bundle
    ([BankingSystem], the IIFE that carries the same logic for the UI),
    followed by the properties of the specification that were checked
    against them.

    Conventions of the embedding.
    - A JavaScript number is an exact rational, or one of the three
      non-finite values [+Infinity], [-Infinity], [NaN]; the rounding of
      IEEE-754 doubles is not represented.
    - Strings are byte strings; [trim] and [toUpperCase] act on ASCII.
    - Account objects live in a store addressed by references, so that two
      parameters may denote the same object.  A reference that is not
      allocated stands for [null]/[undefined].
    - [new Date().toISOString()] reads a clock carried by the state; each
      read advances it.  [Math.random] is a stream carried by the state.
    - Exceptions are [Throw msg]; the state reached when the exception is
      raised is kept, so that "nothing was modified" is a statement about
      that state. *)

From stdpp Require Import gmap strings list numbers.
From Stdlib Require Import QArith Qcanon ZArith Ascii String DecimalString Sorted.

Local Open Scope string_scope.
Local Open Scope list_scope.
Local Open Scope Z_scope.

(* ===================================================================== *)
(** * JavaScript values and the built-ins the engine calls *)
(* ===================================================================== *)

Module JS.

(** ** Numbers *)

Inductive number : Type :=
| Fin (q : Qc)
| PosInf
| NegInf
| NaN.

#[global] Instance number_eq_dec : EqDecision number.
Proof. solve_decision. Defined.

Definition ofZ (z : Z) : number := Fin (Qc_of_Z z).

Definition neg (x : number) : number :=
  match x with
  | Fin q => Fin (- q)%Qc
  | PosInf => NegInf
  | NegInf => PosInf
  | NaN => NaN
  end.

Definition add (x y : number) : number :=
  match x, y with
  | NaN, _ | _, NaN => NaN
  | Fin a, Fin b => Fin (a + b)%Qc
  | PosInf, NegInf | NegInf, PosInf => NaN
  | PosInf, _ | _, PosInf => PosInf
  | NegInf, _ | _, NegInf => NegInf
  end.

Definition sub (x y : number) : number := add x (neg y).

(** Sign of a number: [Some 1], [Some 0], [Some (-1)], or [None] for NaN. *)
Definition sign (x : number) : option Z :=
  match x with
  | Fin q => Some (if bool_decide (0 < q)%Qc then 1
                   else if bool_decide (q < 0)%Qc then -1 else 0)
  | PosInf => Some 1
  | NegInf => Some (-1)
  | NaN => None
  end.

Definition mul (x y : number) : number :=
  match x, y with
  | Fin a, Fin b => Fin (a * b)%Qc
  | _, _ =>
      match sign x, sign y with
      | Some sx, Some sy =>
          if sx * sy =? 0 then NaN
          else if 0 <? sx * sy then PosInf else NegInf
      | _, _ => NaN
      end
  end.

(** Comparisons; every comparison with [NaN] is false. *)
Definition ltb (x y : number) : bool :=
  match x, y with
  | Fin a, Fin b => bool_decide (a < b)%Qc
  | NegInf, Fin _ | NegInf, PosInf | Fin _, PosInf => true
  | _, _ => false
  end.

Definition leb (x y : number) : bool :=
  match x, y with
  | Fin a, Fin b => bool_decide (a <= b)%Qc
  | NaN, _ | _, NaN => false
  | NegInf, _ | _, PosInf => true
  | _, _ => false
  end.

Definition gtb (x y : number) : bool := ltb y x.
Definition geb (x y : number) : bool := leb y x.

Definition isNaN (x : number) : bool :=
  match x with NaN => true | _ => false end.


(** ** Loosely typed values, as far as the validators inspect them *)

Inductive value : Type :=
| VNumber (n : number)
| VString (s : string)
| VBoolean (b : bool)
| VUndefined
| VNull.

(** ** Strings *)

(** White space removed by [String.prototype.trim] (ASCII part). *)
Definition isSpace (c : ascii) : bool :=
  let n := nat_of_ascii c in
  (Nat.eqb n 32 || (Nat.leb 9 n && Nat.leb n 13))%bool.

Fixpoint trimStart (s : string) : string :=
  match s with
  | String c s' => if isSpace c then trimStart s' else s
  | EmptyString => EmptyString
  end.

Fixpoint rev_string (acc s : string) : string :=
  match s with
  | String c s' => rev_string (String c acc) s'
  | EmptyString => acc
  end.

Definition trimEnd (s : string) : string :=
  rev_string EmptyString (trimStart (rev_string EmptyString s)).

Definition trim (s : string) : string := trimEnd (trimStart s).

Definition upper (c : ascii) : ascii :=
  let n := nat_of_ascii c in
  if (Nat.leb 97 n && Nat.leb n 122)%bool then ascii_of_nat (n - 32) else c.

Fixpoint toUpperCase (s : string) : string :=
  match s with
  | String c s' => String (upper c) (toUpperCase s')
  | EmptyString => EmptyString
  end.

(** [s.slice(0, n)] *)
Definition slice0 (n : nat) (s : string) : string := substring 0 n s.

Definition isDigit (c : ascii) : bool :=
  let n := nat_of_ascii c in (Nat.leb 48 n && Nat.leb n 57)%bool.

Definition digit (c : ascii) : Z := Z.of_nat (nat_of_ascii c) - 48.

(** [Number(text)] for a text made of decimal digits. *)
Definition digitsToZ (s : string) : Z :=
  fold_left (fun acc c => 10 * acc + digit c) (list_ascii_of_string s) 0.

(** [String(n)] for a non-negative integer. *)
Definition stringOfZ (z : Z) : string :=
  NilZero.string_of_int (Z.to_int z).

(** ** Dates *)

(** Days from 1970-01-01 to the first day of month [m] (0-based, already
    reduced to [0..11]) of year [y], proleptic Gregorian calendar. *)
Definition dayFromYear (y : Z) : Z :=
  365 * (y - 1970) + (y - 1969) / 4 - (y - 1901) / 100 + (y - 1601) / 400.

Definition isLeap (y : Z) : bool :=
  ((y mod 4 =? 0) && negb (y mod 100 =? 0) || (y mod 400 =? 0))%bool.

Definition daysBeforeMonth (y m : Z) : Z :=
  let common := nth (Z.to_nat m)
                    [0; 31; 59; 90; 120; 151; 181; 212; 243; 273; 304; 334] 0 in
  if (2 <=? m) && isLeap y then common + 1 else common.

(** ECMAScript [MakeDay(year, month, date)]. *)
Definition MakeDay (year month date : Z) : Z :=
  let ym := year + month / 12 in
  let mn := month mod 12 in
  dayFromYear ym + daysBeforeMonth ym mn + date - 1.

Definition msPerDay : Z := 86400000.

(** [Date.UTC(year, monthIndex, day, h, min, s, ms)] on integer
    arguments: years [0..99] denote [1900..1999]. *)
Definition Date_UTC (year monthIndex day h mi s ms : Z) : Z :=
  let yr := if (0 <=? year) && (year <=? 99) then 1900 + year else year in
  MakeDay yr monthIndex day * msPerDay
  + (h * 3600000 + mi * 60000 + s * 1000 + ms).

(** [Math.round] of [n / d] for a positive divisor: halves go up. *)
Definition roundDiv (n d : Z) : Z := (2 * n + d) / (2 * d).

End JS.

Export JS.

(* ===================================================================== *)
(** * Data model *)
(* ===================================================================== *)

(** The [type] tag of a transaction record. *)
Inductive txType : Type :=
| DEPOSIT | WITHDRAWAL | OVERDRAFT_ATTEMPT | TRANSFER_OUT | TRANSFER_IN | INTEREST.

#[global] Instance txType_eq_dec : EqDecision txType.
Proof. solve_decision. Defined.

(** The string stored in the [type] field. *)
Definition typeName (t : txType) : string :=
  match t with
  | DEPOSIT => "DEPOSIT"
  | WITHDRAWAL => "WITHDRAWAL"
  | OVERDRAFT_ATTEMPT => "OVERDRAFT_ATTEMPT"
  | TRANSFER_OUT => "TRANSFER_OUT"
  | TRANSFER_IN => "TRANSFER_IN"
  | INTEREST => "INTEREST"
  end.

(** A transaction record.  [penalty], [to] and [from] are present on some
    variants only; [to]/[from] hold the counterparty's account number. *)
Module Tx.
Record t : Type := Make {
  type : txType;
  amount : number;
  date : string;
  newBalance : number;
  penalty : option number;
  to : option string;
  from : option string;
}.
End Tx.
Abbreviation transaction := Tx.t.

#[global] Instance transaction_eq_dec : EqDecision transaction.
Proof. solve_decision. Defined.

Inductive accountStatus : Type := ACTIVE | FROZEN.

#[global] Instance accountStatus_eq_dec : EqDecision accountStatus.
Proof. solve_decision. Defined.

Module StatusChange.
Record t : Type := Make {
  action : string;
  by_ : string;
  date : string;
}.
End StatusChange.
Abbreviation statusChange := StatusChange.t.

#[global] Instance statusChange_eq_dec : EqDecision statusChange.
Proof. solve_decision. Defined.

(** An account object.  [transactions], [status] and [statusHistory] are
    absent on a freshly created account ([None]) and are materialised by
    the first operation that needs them.  [accountNumber] is [None] on an
    object that has no such property. *)
Module Account.
Record t : Type := Make {
  accountNumber : option string;
  firstName : string;
  lastName : string;
  balance : number;
  createdAt : string;
  transactions : option (list transaction);
  status : option accountStatus;
  statusHistory : option (list statusChange);
}.

Definition set_balance (b : number) (a : t) : t :=
  Make (accountNumber a) (firstName a) (lastName a) b (createdAt a)
       (transactions a) (status a) (statusHistory a).

Definition set_transactions (l : list transaction) (a : t) : t :=
  Make (accountNumber a) (firstName a) (lastName a) (balance a) (createdAt a)
       (Some l) (status a) (statusHistory a).

Definition set_status (s : accountStatus) (a : t) : t :=
  Make (accountNumber a) (firstName a) (lastName a) (balance a) (createdAt a)
       (transactions a) (Some s) (statusHistory a).


(** The views that read an absent field as its default. *)
Definition txs (a : t) : list transaction := default [] (transactions a).
Definition state (a : t) : accountStatus := default ACTIVE (status a).
Definition history (a : t) : list statusChange := default [] (statusHistory a).

(** The account with every lazily created field materialised. *)
Definition materialised (a : t) : t :=
  Make (accountNumber a) (firstName a) (lastName a) (balance a) (createdAt a)
       (Some (txs a)) (Some (state a)) (Some (history a)).
End Account.
Abbreviation account := Account.t.

#[global] Instance account_eq_dec : EqDecision account.
Proof. solve_decision. Defined.

(* ===================================================================== *)
(** * State, exceptions and the clock *)
(* ===================================================================== *)

Definition ref : Type := nat.

Record world : Type := World {
  objects : gmap ref account;   (* the account objects, by identity *)
  accounts : list ref;          (* the registry array of accountStore.js *)
  clock : nat -> string;        (* successive results of new Date().toISOString() *)
  ticks : nat;                  (* number of clock reads so far *)
  random : nat -> Z;            (* successive Math.floor(Math.random() * 9000000000) *)
  draws : nat;                  (* number of draws so far *)
  dateParse : string -> option Z; (* new Date(s).getTime(); None is NaN *)
}.

Definition with_objects (o : gmap ref account) (w : world) : world :=
  World o (accounts w) (clock w) (ticks w) (random w) (draws w) (dateParse w).

Definition with_accounts (l : list ref) (w : world) : world :=
  World (objects w) l (clock w) (ticks w) (random w) (draws w) (dateParse w).

Definition tick (w : world) : world :=
  World (objects w) (accounts w) (clock w) (S (ticks w)) (random w) (draws w)
        (dateParse w).

Definition drawn (w : world) : world :=
  World (objects w) (accounts w) (clock w) (ticks w) (random w) (S (draws w))
        (dateParse w).

Inductive outcome (A : Type) : Type :=
| Return (a : A)
| Throw (msg : string).
Arguments Return {A} a.
Arguments Throw {A} msg.

Definition M (A : Type) : Type := world -> outcome A * world.

Definition ret {A} (a : A) : M A := fun w => (Return a, w).
Definition throw {A} (msg : string) : M A := fun w => (Throw msg, w).
Definition bind {A B} (c : M A) (k : A -> M B) : M B :=
  fun w => match c w with
           | (Return a, w') => k a w'
           | (Throw msg, w') => (Throw msg, w')
           end.

Notation "x <~ c ;; k" := (bind c (fun x => k))
  (at level 100, c at next level, right associativity).
Notation "c ;;; k" := (bind c (fun _ => k))
  (at level 100, right associativity).

(** [new Date().toISOString()] *)
Definition now : M string :=
  fun w => (Return (clock w (ticks w)), tick w).

(** [Math.floor(Math.random() * 9000000000)] *)
Definition mathRandom : M Z :=
  fun w => (Return (random w (draws w)), drawn w).

(** [new Date(s).getTime()] *)
Definition getTime (s : string) : M (option Z) :=
  fun w => (Return (dateParse w s), w).

(** Reading a property of the object behind [r]; on [null]/[undefined]
    the runtime raises a TypeError. *)
Definition deref (r : ref) : M account :=
  fun w => match objects w !! r with
           | Some a => (Return a, w)
           | None => (Throw "TypeError: Cannot read properties of undefined", w)
           end.

(** In-place update of the object behind [r]. *)
Definition update (r : ref) (f : account -> account) : M unit :=
  fun w => match objects w !! r with
           | Some a => (Return tt, with_objects (<[r := f a]> (objects w)) w)
           | None => (Throw "TypeError: Cannot set properties of undefined", w)
           end.

(** [!account]: the argument is [null] or [undefined]. *)
Definition isNullish (r : ref) : M bool :=
  fun w => (Return (bool_decide (objects w !! r = None)), w).

(* ===================================================================== *)
(** * src/utils/validators.js *)
(* ===================================================================== *)

Definition requireNonEmptyString (v : value) (fieldName : string) : M string :=
  match v with
  | VString s =>
      let trimmed := trim s in
      if bool_decide (trimmed = "") then throw (fieldName +:+ " is required.")
      else ret trimmed
  | _ => throw (fieldName +:+ " must be a string.")
  end.

Definition requirePositiveNumber (v : value) (fieldName : string) : M number :=
  match v with
  | VNumber n =>
      if isNaN n then throw (fieldName +:+ " must be a number.")
      else if leb n (ofZ 0) then throw (fieldName +:+ " must be greater than zero.")
      else ret n
  | _ => throw (fieldName +:+ " must be a number.")
  end.

(* ===================================================================== *)
(** * src/models/accountStore.js *)
(* ===================================================================== *)

Module AccountData.
Record t : Type := Make {
  firstName : value;
  lastName : value;
  initialDeposit : value;
}.
End AccountData.
Abbreviation accountData := AccountData.t.

(** [accounts.some((acc) => acc.accountNumber === accountNumber)] *)
Definition numberTaken (accountNumber : string) : M bool :=
  fun w => (Return (existsb
                      (fun r => match objects w !! r with
                                | Some a => bool_decide
                                              (Account.accountNumber a = Some accountNumber)
                                | None => false
                                end)
                      (accounts w)), w).

(** The [do ... while] loop of [generateUniqueAccountNumber]; it has no
    bound in the source, so the embedding counts iterations: [None] means
    that [fuel] draws all collided. *)
Fixpoint generateUniqueAccountNumber (fuel : nat) : M (option string) :=
  match fuel with
  | O => ret None
  | S fuel' =>
      x <~ mathRandom ;;
      let accountNumber := stringOfZ (x + 1000000000) in
      taken <~ numberTaken accountNumber ;;
      if (taken : bool) then generateUniqueAccountNumber fuel'
      else ret (Some accountNumber)
  end.

(** Allocation of a new object and [accounts.push(newAccount)]. *)
Definition pushAccount (a : account) : M ref :=
  fun w => let r := fresh (dom (objects w)) in
           (Return r,
            with_accounts (accounts w ++ [r])
                          (with_objects (<[r := a]> (objects w)) w)).

Definition generateBankAccount (fuel : nat) (data : option accountData)
  : M (option ref) :=
  match data with
  | None => throw "Account data is required."
  | Some accountData =>
      firstName <~ requireNonEmptyString (AccountData.firstName accountData)
                                         "First name" ;;
      lastName <~ requireNonEmptyString (AccountData.lastName accountData)
                                        "Last name" ;;
      match AccountData.initialDeposit accountData with
      | VNumber initialDeposit =>
          if isNaN initialDeposit then throw "Initial deposit must be a number."
          else if ltb initialDeposit (ofZ 50)
          then throw "The initial deposit must be at least $50."
          else
            number <~ generateUniqueAccountNumber fuel ;;
            match number with
            | None => ret None
            | Some accountNumber =>
                createdAt <~ now ;;
                r <~ pushAccount
                       (Account.Make (Some accountNumber) firstName lastName
                                     initialDeposit createdAt None None None) ;;
                ret (Some r)
            end
      | _ => throw "Initial deposit must be a number."
      end
  end.

Definition getAccounts : M (list ref) :=
  fun w => (Return (accounts w), w).

(* ===================================================================== *)
(** * src/services/transactionService.js *)
(* ===================================================================== *)

(** The summaries returned by the services.  [message] and
    [interestApplied] are present on some results of [calculateSaving]
    only.  [transactions] is the content of the account's array at the
    time of the return. *)
Module Summary.
Record t : Type := Make {
  accountNumber : option string;
  balance : number;
  transactions : list transaction;
  message : option string;
  interestApplied : option number;
}.
End Summary.
Abbreviation summary := Summary.t.

Definition ensureTransactions (account : ref) : M (list transaction) :=
  a <~ deref account ;;
  match Account.transactions a with
  | Some l => ret l
  | None => update account (Account.set_transactions []) ;;; ret []
  end.

(** [account.transactions.push(t)] *)
Definition push (account : ref) (t : transaction) : M unit :=
  update account (fun a => Account.set_transactions (Account.txs a ++ [t]) a).

(** [{ accountNumber: account.accountNumber, balance: account.balance,
       transactions }] *)
Definition summarise (account : ref) : M summary :=
  a <~ deref account ;;
  ret (Summary.Make (Account.accountNumber a) (Account.balance a)
                    (Account.txs a) None None).

Definition addDeposit (account : ref) (amount : value) : M ref :=
  amount <~ requirePositiveNumber amount "Deposit amount" ;;
  ensureTransactions account ;;;
  date <~ now ;;
  a <~ deref account ;;
  let transaction :=
    Tx.Make DEPOSIT amount date (add (Account.balance a) amount) None None None in
  push account transaction ;;;
  update account (fun a => Account.set_balance (add (Account.balance a) amount) a) ;;;
  ret account.

Definition withdrawal (account : ref) (amount : value) : M summary :=
  amount <~ requirePositiveNumber amount "Withdrawal amount" ;;
  ensureTransactions account ;;;
  a <~ deref account ;;
  if gtb amount (Account.balance a) then
    let penalty := ofZ 5 in
    update account (fun a => Account.set_balance (sub (Account.balance a) penalty) a) ;;;
    date <~ now ;;
    a <~ deref account ;;
    push account (Tx.Make OVERDRAFT_ATTEMPT amount date (Account.balance a)
                          (Some penalty) None None) ;;;
    summarise account
  else
    update account (fun a => Account.set_balance (sub (Account.balance a) amount) a) ;;;
    date <~ now ;;
    a <~ deref account ;;
    push account (Tx.Make WITHDRAWAL amount date (Account.balance a)
                          None None None) ;;;
    summarise account.

(** [account?.accountNumber] *)
Definition identifierOf (r : ref) : M (option string) :=
  fun w => (Return (a ← objects w !! r; Account.accountNumber a), w).

Definition truthy (s : option string) : bool :=
  match s with
  | Some s => negb (bool_decide (s = ""))
  | None => false
  end.

Definition transferMoney (from to : ref) (amount : value) : M (summary * summary) :=
  fromNumber <~ identifierOf from ;;
  toNumber <~ identifierOf to ;;
  if negb (truthy fromNumber) || negb (truthy toNumber)
  then throw "Account must be available!"
  else
    amount <~ requirePositiveNumber amount "Amount" ;;
    f <~ deref from ;;
    if gtb amount (Account.balance f) then throw "Insufficient funds for transfer."
    else
      ensureTransactions from ;;;
      ensureTransactions to ;;;
      update from (fun a => Account.set_balance (sub (Account.balance a) amount) a) ;;;
      t <~ deref to ;;
      date <~ now ;;
      f <~ deref from ;;
      push from (Tx.Make TRANSFER_OUT amount date (Account.balance f)
                         None (Account.accountNumber t) None) ;;;
      update to (fun a => Account.set_balance (add (Account.balance a) amount) a) ;;;
      f <~ deref from ;;
      date <~ now ;;
      t <~ deref to ;;
      push to (Tx.Make TRANSFER_IN amount date (Account.balance t)
                       None None (Account.accountNumber f)) ;;;
      sf <~ summarise from ;;
      st <~ summarise to ;;
      ret (sf, st).

(** ** Retrieval *)

Module Options.
Record t : Type := Make {
  startDate : option string;
  endDate : option string;
  type : option string;
}.
End Options.
Abbreviation options := Options.t.

(** [/^\d{4}-\d{2}-\d{2}$/.test(value)] *)
Definition isDateOnly (v : string) : bool :=
  match list_ascii_of_string v with
  | [y1; y2; y3; y4; s1; m1; m2; s2; d1; d2] =>
      isDigit y1 && isDigit y2 && isDigit y3 && isDigit y4
      && Ascii.eqb s1 "-" && isDigit m1 && isDigit m2
      && Ascii.eqb s2 "-" && isDigit d1 && isDigit d2
  | _ => false
  end.

(** [value.split(sep)] *)
Fixpoint split (sep : ascii) (s : string) : list string :=
  match s with
  | EmptyString => [EmptyString]
  | String c s' =>
      if Ascii.eqb c sep then EmptyString :: split sep s'
      else match split sep s' with
           | h :: t => String c h :: t
           | [] => [String c EmptyString]
           end
  end.

(** The time value of a calendar-date text at the start or the end of the
    day.  [Date.UTC] is never [NaN] on the fields of such a text, so the
    [Number.isNaN(ms)] test of this branch cannot fire. *)
Definition dateOnlyMs (v : string) (isEndOfDay : bool) : Z :=
  match split "-" v with
  | yearText :: monthText :: dayText :: _ =>
      let year := digitsToZ yearText in
      let monthIndex := digitsToZ monthText - 1 in
      let day := digitsToZ dayText in
      Date_UTC year monthIndex day
               (if isEndOfDay then 23 else 0)
               (if isEndOfDay then 59 else 0)
               (if isEndOfDay then 59 else 0)
               (if isEndOfDay then 999 else 0)
  | _ => 0
  end.

Definition parseBoundaryMs (v : option string) (isEndOfDay : bool) : M (option Z) :=
  match v with
  | None => ret None
  | Some value =>
      if bool_decide (value = "") then ret None
      else if isDateOnly value then ret (Some (dateOnlyMs value isEndOfDay))
      else
        ms <~ getTime value ;;
        match ms with
        | None => throw ("Invalid date: " +:+ value)
        | Some ms => ret (Some ms)
        end
  end.

(** [Array.prototype.sort] with a comparator: stable; a comparator result
    that is [NaN] ([None]) counts as [0]. *)
Fixpoint insertSorted {A} (cmp : A -> A -> option Z) (x : A) (l : list A) : list A :=
  match l with
  | [] => [x]
  | y :: l' =>
      match cmp x y with
      | Some v => if 0 <? v then y :: insertSorted cmp x l' else x :: l
      | None => x :: l
      end
  end.

Definition sortBy {A} (cmp : A -> A -> option Z) (l : list A) : list A :=
  foldr (insertSorted cmp) [] l.

(** [a - b] on time values. *)
Definition subMs (a b : option Z) : option Z :=
  match a, b with
  | Some x, Some y => Some (x - y)
  | _, _ => None
  end.

(** The callback of [filter] in [retrieveTransactionsInRange]. *)
Definition keeps (parse : string -> option Z) (normalizedType : option string)
           (startMs endMs : option Z) (t : transaction) : bool :=
  if match normalizedType with
     | Some n => negb (bool_decide (n = ""))
                 && negb (bool_decide (toUpperCase (typeName (Tx.type t)) = n))
     | None => false
     end
  then false
  else match parse (Tx.date t) with
       | None => false
       | Some time =>
           if match startMs with Some s => time <? s | None => false end then false
           else if match endMs with Some e => e <? time | None => false end then false
           else true
       end.

Definition newestFirst (parse : string -> option Z) (a b : transaction) : option Z :=
  subMs (parse (Tx.date b)) (parse (Tx.date a)).

Definition normalizeType (type : option string) : M (option string) :=
  match type with
  | None => ret None
  | Some t =>
      s <~ requireNonEmptyString (VString t) "Type" ;;
      ret (Some (toUpperCase s))
  end.

Definition retrieveTransactionsInRange (account : ref) (options : options)
  : M (list transaction) :=
  nullish <~ isNullish account ;;
  if (nullish : bool) then throw "Account is required."
  else
    transactions <~ ensureTransactions account ;;
    startMs <~ parseBoundaryMs (Options.startDate options) false ;;
    endMs <~ parseBoundaryMs (Options.endDate options) true ;;
    if match startMs, endMs with
       | Some s, Some e => e <? s
       | _, _ => false
       end
    then throw "startDate must be on/before endDate."
    else
      normalizedType <~ normalizeType (Options.type options) ;;
      fun w =>
        let parse := dateParse w in
        (Return (sortBy (newestFirst parse)
                        (List.filter (keeps parse normalizedType startMs endMs)
                                     transactions)), w).

(* ===================================================================== *)
(** * Interest: src/services/interestService.js and the browser bundle *)
(* ===================================================================== *)

(** [0.00167] *)
Definition monthlyRate : number := Fin (Q2Qc (167 # 100000)).

(** [x.toFixed(2)]: for a negative number the sign, then the digits of
    its absolute value; the digits are those of the nearest multiple of
    1/100, the larger one on a tie. *)
Definition toFixed2 (x : number) : string :=
  match x with
  | Fin q =>
      let num := Z.abs (Qnum q) in
      let den := Zpos (Qden q) in
      let n := (2 * (num * 100) + den) / (2 * den) in
      let cents := n mod 100 in
      (if Qnum q <? 0 then "-" else "")
        +:+ stringOfZ (n / 100) +:+ "."
        +:+ (if cents <? 10 then "0" else "") +:+ stringOfZ cents
  | PosInf => "Infinity"
  | NegInf => "-Infinity"
  | NaN => "NaN"
  end.

(** The copy of src/services/interestService.js.  The text printed by
    [console.log] on a low balance is not part of the state. *)
Module InterestService.

Definition calculateSaving (account : ref) : M summary :=
  ensureTransactions account ;;;
  a <~ deref account ;;
  if leb (Account.balance a) (ofZ 500) then
    ret (Summary.Make (Account.accountNumber a) (Account.balance a)
                      (Account.txs a) None None)
  else
    let interestAmount := mul (Account.balance a) monthlyRate in
    date <~ now ;;
    let newTrans :=
      Tx.Make INTEREST interestAmount date
              (add (Account.balance a) interestAmount) None None None in
    push account newTrans ;;;
    a <~ deref account ;;
    ret (Summary.Make (Account.accountNumber a)
                      (add (Account.balance a) interestAmount)
                      (Account.txs a) None None).

End InterestService.

(** The copy of the browser bundle ([BankingSystem.calculateSaving]).  The
    other ledger and security functions of the bundle read as the modules
    embedded above. *)
Module BankingSystem.

Definition lowBalanceMessage (balance : number) : string :=
  "Balance $" +:+ toFixed2 balance +:+ " is below $500 — no interest applied.".

Definition calculateSaving (account : ref) : M summary :=
  ensureTransactions account ;;;
  a <~ deref account ;;
  if leb (Account.balance a) (ofZ 500) then
    ret (Summary.Make (Account.accountNumber a) (Account.balance a)
                      (Account.txs a)
                      (Some (lowBalanceMessage (Account.balance a))) None)
  else
    let interest := mul (Account.balance a) monthlyRate in
    date <~ now ;;
    push account (Tx.Make INTEREST interest date
                          (add (Account.balance a) interest) None None None) ;;;
    update account
           (fun a => Account.set_balance (add (Account.balance a) interest) a) ;;;
    a <~ deref account ;;
    ret (Summary.Make (Account.accountNumber a) (Account.balance a)
                      (Account.txs a) None (Some interest)).

End BankingSystem.

(* ===================================================================== *)
(** * src/services/securityService.js *)
(* ===================================================================== *)

Module StatusSummary.
Record t : Type := Make {
  accountNumber : option string;
  status : accountStatus;
  statusHistory : list statusChange;
}.
End StatusSummary.
Abbreviation statusSummary := StatusSummary.t.



(** [if (!account.status) account.status = "ACTIVE"] *)
Definition ensureStatus (account : ref) : M unit :=
  a <~ deref account ;;
  match Account.status a with
  | Some _ => ret tt
  | None => update account (Account.set_status ACTIVE)
  end.





Definition assertAccountNotFrozen (account : ref) : M unit :=
  ensureStatus account ;;;
  a <~ deref account ;;
  if bool_decide (Account.status a = Some FROZEN)
  then throw "Account is frozen. Transactions are not allowed."
  else ret tt.

(** The callback of [filter] in [withdrawalWithDailyLimit]. *)
Definition withdrawnOn (todayKey : string) (t : transaction) : bool :=
  bool_decide (Tx.type t = WITHDRAWAL)
  && bool_decide (slice0 10 (Tx.date t) = todayKey).

(** [.reduce((sum, t) => sum + t.amount, 0)] *)
Definition sumAmounts (l : list transaction) : number :=
  fold_left (fun sum t => add sum (Tx.amount t)) l (ofZ 0).

Definition withdrawalWithDailyLimit (account : ref) (amount : value) : M summary :=
  assertAccountNotFrozen account ;;;
  n <~ requirePositiveNumber amount "Withdrawal amount" ;;
  ensureTransactions account ;;;
  today <~ now ;;
  let todayKey := slice0 10 today in
  a <~ deref account ;;
  let withdrawnToday :=
    sumAmounts (List.filter (withdrawnOn todayKey) (Account.txs a)) in
  if gtb (add withdrawnToday n) (ofZ 500)
  then throw "Daily withdrawal limit exceeded ($500 max)"
  else withdrawal account amount.

(** ** Suspicious activity *)

(** An alert.  The source renders it into a text
    ([High-value transaction: $<amount> <kind>],
     [Rapid withdrawals: <count> transactions within <minutes> minutes]);
    the embedding keeps the values that are rendered. *)
Inductive alert : Type :=
| HighValue (amount : number) (kind : string)
| RapidWithdrawals (count : Z) (minutes : Z).

Module Report.
Record t : Type := Make {
  isSuspicious : bool;
  alerts : list alert;
}.
End Report.
Abbreviation report := Report.t.

Definition kindOf (t : txType) : string :=
  match t with
  | TRANSFER_OUT | TRANSFER_IN => "transfer"
  | WITHDRAWAL => "withdrawal"
  | DEPOSIT => "deposit"
  | _ => "transaction"
  end.

(** The first loop: one alert per transaction above 10000. *)
Definition highValueAlerts (l : list transaction) : list alert :=
  flat_map (fun t => if gtb (Tx.amount t) (ofZ 10000)
                     then [HighValue (Tx.amount t) (kindOf (Tx.type t))]
                     else []) l.

(** A small withdrawal with its [_ms] field. *)
Definition entry : Type := transaction * option Z.

Definition isSmallWithdrawal (t : transaction) : bool :=
  bool_decide (Tx.type t = WITHDRAWAL) && leb (Tx.amount t) (ofZ 500).

Definition smallWithdrawals (parse : string -> option Z) (l : list transaction)
  : list entry :=
  sortBy (fun a b => subMs (snd a) (snd b))
         (map (fun t => (t, parse (Tx.date t))) (List.filter isSmallWithdrawal l)).

Definition windowMs : Z := 5 * 60 * 1000.

(** Comparisons of a span that may be [NaN]. *)
Definition spanLe (span : option Z) (bound : Z) : bool :=
  match span with Some s => s <=? bound | None => false end.
Definition spanGt (span : option Z) (bound : Z) : bool :=
  match span with Some s => bound <? s | None => false end.

(** [Math.max(1, Math.round(span / 60000))] *)
Definition spanMinutes (span : option Z) : Z :=
  match span with Some s => Z.max 1 (roundDiv s 60000) | None => 1 end.

(** The inner loop [for (let j = ...; j < small.length; j++)], started at
    index [j] with [rest] the entries from index [j] on.  The result is the
    alert pushed before [break], if any. *)
Fixpoint scanWindow (ms_i : option Z) (i j : nat) (rest : list entry) : option alert :=
  match rest with
  | [] => None
  | (_, ms_j) :: rest' =>
      let span := subMs ms_j ms_i in
      if spanLe span windowMs then
        Some (RapidWithdrawals (Z.of_nat j - Z.of_nat i + 1) (spanMinutes span))
      else if spanGt span windowMs then None
      else scanWindow ms_i i (S j) rest'
  end.

(** The outer loop [for (let i = ...; i < small.length && !flaggedRapid; i++)],
    started at index [i] with [rest] the entries from index [i] on. *)
Fixpoint scanFrom (small : list entry) (i : nat) (rest : list entry) : option alert :=
  match rest with
  | [] => None
  | (_, ms_i) :: rest' =>
      match scanWindow ms_i i (i + 2) (drop (i + 2) small) with
      | Some a => Some a
      | None => scanFrom small (S i) rest'
      end
  end.

Definition rapidAlerts (small : list entry) : list alert :=
  match scanFrom small 0 small with
  | Some a => [a]
  | None => []
  end.

Definition checkForSuspiciousActivity (account : ref) : M report :=
  ensureTransactions account ;;;
  a <~ deref account ;;
  fun w =>
    let alerts := highValueAlerts (Account.txs a)
                  ++ rapidAlerts (smallWithdrawals (dateParse w) (Account.txs a)) in
    (Return (Report.Make (0 <? Z.of_nat (List.length alerts)) alerts), w).

(** ** Freeze-aware wrappers *)

Definition addDepositSafe (account : ref) (amount : value) : M ref :=
  assertAccountNotFrozen account ;;;
  addDeposit account amount.

Definition transferMoneySafe (fromAccount toAccount : ref) (amount : value)
  : M (summary * summary) :=
  assertAccountNotFrozen fromAccount ;;;
  assertAccountNotFrozen toAccount ;;;
  transferMoney fromAccount toAccount amount.

(* ===================================================================== *)
(** * src/services/securityService.js: password validation *)
(* ===================================================================== *)

(** [{ valid, reasons }]; [reasons] is absent on a valid password. *)
Module PasswordResult.
Record t : Type := Make {
  valid : bool;
  reasons : option (list string);
}.
End PasswordResult.
Abbreviation passwordResult := PasswordResult.t.












(* ===================================================================== *)
(** * The browser bundle: retrieval *)
(* ===================================================================== *)

(** The copy of [retrieveTransactionsInRange] in the browser bundle: an
    empty [type] stands for no filter
    ([type === undefined || type === null || type === ""]). *)
Module Bundle.

Definition normalizeType (type : option string) : M (option string) :=
  match type with
  | None => ret None
  | Some t =>
      if bool_decide (t = "") then ret None
      else
        s <~ requireNonEmptyString (VString t) "Type" ;;
        ret (Some (toUpperCase s))
  end.

Definition retrieveTransactionsInRange (account : ref) (options : options)
  : M (list transaction) :=
  nullish <~ isNullish account ;;
  if (nullish : bool) then throw "Account is required."
  else
    transactions <~ ensureTransactions account ;;
    startMs <~ parseBoundaryMs (Options.startDate options) false ;;
    endMs <~ parseBoundaryMs (Options.endDate options) true ;;
    if match startMs, endMs with
       | Some s, Some e => e <? s
       | _, _ => false
       end
    then throw "startDate must be on/before endDate."
    else
      normalizedType <~ normalizeType (Options.type options) ;;
      fun w =>
        let parse := dateParse w in
        (Return (sortBy (newestFirst parse)
                        (List.filter (keeps parse normalizedType startMs endMs)
                                     transactions)), w).

End Bundle.

(* ===================================================================== *)
(** * A concrete environment for the examples *)
(* ===================================================================== *)

(** [new Date(s).getTime()] on the texts that [toISOString] produces
    ([YYYY-MM-DDTHH:mm:ss.sssZ]).  Every other text is unparsable here;
    the general statements below hold for any parser. *)
Definition isoTime (s : string) : option Z :=
  match list_ascii_of_string s with
  | [y1; y2; y3; y4; s1; m1; m2; s2; d1; d2; st;
     h1; h2; c1; n1; n2; c2; e1; e2; dot; f1; f2; f3; z] =>
      if forallb isDigit [y1; y2; y3; y4; m1; m2; d1; d2; h1; h2; n1; n2;
                          e1; e2; f1; f2; f3]
         && Ascii.eqb s1 "-" && Ascii.eqb s2 "-" && Ascii.eqb st "T"
         && Ascii.eqb c1 ":" && Ascii.eqb c2 ":" && Ascii.eqb dot "."
         && Ascii.eqb z "Z"
      then
        let year := digitsToZ (string_of_list_ascii [y1; y2; y3; y4]) in
        let month := digitsToZ (string_of_list_ascii [m1; m2]) in
        let day := digitsToZ (string_of_list_ascii [d1; d2]) in
        let h := digitsToZ (string_of_list_ascii [h1; h2]) in
        let mi := digitsToZ (string_of_list_ascii [n1; n2]) in
        let sec := digitsToZ (string_of_list_ascii [e1; e2]) in
        let ms := digitsToZ (string_of_list_ascii [f1; f2; f3]) in
        if (1 <=? month) && (month <=? 12) && (1 <=? day) && (day <=? 31)
           && (h <=? 23) && (mi <=? 59) && (sec <=? 59)
        then Some (MakeDay year (month - 1) day * msPerDay
                   + (h * 3600000 + mi * 60000 + sec * 1000 + ms))
        else None
      else None
  | _ => None
  end.

(** A clock that reads successive seconds of 2026-01-05, 10:00 UTC. *)
Definition demoClock (n : nat) : string :=
  "2026-01-05T10:00:" +:+ (if Nat.ltb (n mod 60) 10 then "0" else "")
    +:+ stringOfZ (Z.of_nat (n mod 60)) +:+ ".000Z".

Definition demoWorld (objs : gmap ref account) : world :=
  World objs (map fst (map_to_list objs)) demoClock 0
        (fun n => 1234567890 + Z.of_nat n) 0 isoTime.

(** An account as [generateBankAccount] leaves it. *)
Definition freshAccount (accountNumber : string) (balance : number) : account :=
  Account.Make (Some accountNumber) "John" "Doe" balance "2026-01-05T09:00:00.000Z"
               None None None.



(* ===================================================================== *)
(** * Definitions used by the statements *)
(* ===================================================================== *)

(** ** States and postings *)

(** [store r a w]: the state [w] with the object behind [r] replaced. *)
Definition store (r : ref) (a : account) (w : world) : world :=
  with_objects (<[r := a]> (objects w)) w.

(** The account with a record appended and its balance set: the effect
    of posting a transaction. *)
Definition posted (t : transaction) (b : number) (a : account) : account :=
  Account.set_balance b (Account.set_transactions (Account.txs a ++ [t]) a).

(** The amount accepted by [requirePositiveNumber]. *)
Definition validAmount (v : value) : option number :=
  match v with
  | VNumber n => if isNaN n then None else if leb n (ofZ 0) then None else Some n
  | _ => None
  end.

(** ** Withdrawal *)



Definition account100 : account := freshAccount "1000000001" (ofZ 100).
Definition world100 : world := demoWorld {[ 0%nat := account100 ]}.

(** ** Transfer *)

(** [!r?.accountNumber] is false: the object exists and its account number
    is a non-empty string. *)
Definition identified (w : world) (r : ref) : bool :=
  truthy (a ← objects w !! r; Account.accountNumber a).

(** The conditions under which [transferMoney] refuses. *)
Definition transferRejected (w : world) (from to : ref) (amount : value) : Prop :=
  identified w from = false
  \/ identified w to = false
  \/ validAmount amount = None
  \/ exists n f, validAmount amount = Some n /\ objects w !! from = Some f
                 /\ gtb n (Account.balance f) = true.

Definition transferErrors : list string :=
  [ "Account must be available!"; "Amount must be a number.";
    "Amount must be greater than zero."; "Insufficient funds for transfer." ].

(** The state after the debit of [from]. *)
Definition debited (w : world) (from to : ref) (n : number) : world :=
  match objects w !! from, objects w !! to with
  | Some f, Some t =>
      store from
            (posted (Tx.Make TRANSFER_OUT n (clock w (ticks w))
                             (sub (Account.balance f) n)
                             None (Account.accountNumber t) None)
                    (sub (Account.balance f) n) f)
            (tick w)
  | _, _ => w
  end.

(** The state after the credit of [to], applied to a state [w] in which
    [from] has been debited. *)
Definition credited (w : world) (from to : ref) (n : number) : world :=
  match objects w !! from, objects w !! to with
  | Some f, Some t =>
      store to
            (posted (Tx.Make TRANSFER_IN n (clock w (ticks w))
                             (add (Account.balance t) n)
                             None None (Account.accountNumber f))
                    (add (Account.balance t) n) t)
            (tick w)
  | _, _ => w
  end.

Definition transferred (w : world) (from to : ref) (n : number) : world :=
  credited (debited w from to n) from to n.

Definition account300 : account := freshAccount "1000000003" (ofZ 300).



(** ** Freeze and unfreeze *)


(** ** Daily withdrawal limit *)

(** The account once [status] and [transactions] exist. *)
Definition guarded (a : account) : account :=
  Account.set_transactions (Account.txs a)
                           (Account.set_status (Account.state a) a).

(** The amount already withdrawn on the day of [today]. *)
Definition withdrawnToday (today : string) (a : account) : number :=
  sumAmounts (List.filter (withdrawnOn (slice0 10 today)) (Account.txs a)).



(** ** Retrieval *)

(** The value of [parseBoundaryMs], given the parser of the environment. *)
Definition boundaryOf (parse : string -> option Z) (v : option string)
           (isEndOfDay : bool) : outcome (option Z) :=
  match v with
  | None => Return None
  | Some value =>
      if bool_decide (value = "") then Return None
      else if isDateOnly value then Return (Some (dateOnlyMs value isEndOfDay))
      else match parse value with
           | None => Throw ("Invalid date: " +:+ value)
           | Some ms => Return (Some ms)
           end
  end.

(** The value of [normalizeType]. *)
Definition typeFilterOf (type : option string) : outcome (option string) :=
  match type with
  | None => Return None
  | Some t =>
      if bool_decide (trim t = "") then Throw "Type is required."
      else Return (Some (toUpperCase (trim t)))
  end.

(** [startMs > endMs], both bounds given. *)
Definition inverted (startMs endMs : option Z) : bool :=
  match startMs, endMs with
  | Some s, Some e => e <? s
  | _, _ => false
  end.





Definition depositNov : transaction :=
  Tx.Make DEPOSIT (ofZ 200) "2023-11-15T12:00:00.000Z" (ofZ 300) None None None.
Definition withdrawalNov : transaction :=
  Tx.Make WITHDRAWAL (ofZ 50) "2023-11-20T12:00:00.000Z" (ofZ 250) None None None.
Definition accountNov : account :=
  Account.Make (Some "1000000006") "Alice" "Johnson" (ofZ 250)
               "2023-11-01T09:00:00.000Z" (Some [depositNov; withdrawalNov]) None None.
Definition worldNov : world := demoWorld {[ 0%nat := accountNov ]}.

(** ** Suspicious activity *)

(** An entry whose [_ms] is a number. *)
Definition timed (e : entry) : Prop := snd e <> None.

Definition smallWithdrawalAt (date : string) : transaction :=
  Tx.Make WITHDRAWAL (ofZ 100) date (ofZ 0) None None None.

(** Four small withdrawals, the third with a date that does not parse. *)
Definition accountGap : account :=
  Account.Make (Some "1000000007") "John" "Doe" (ofZ 600) "2026-01-05T08:00:00.000Z"
               (Some [ smallWithdrawalAt "2026-01-05T09:00:00.000Z";
                       smallWithdrawalAt "2026-01-05T09:00:00.000Z";
                       smallWithdrawalAt "invalid";
                       smallWithdrawalAt "2026-01-05T09:00:00.000Z" ])
               None None.
Definition worldGap : world := demoWorld {[ 0%nat := accountGap ]}.

(** Four small withdrawals within three minutes. *)
Definition accountCluster : account :=
  Account.Make (Some "1000000008") "John" "Doe" (ofZ 600) "2026-01-05T08:00:00.000Z"
               (Some [ smallWithdrawalAt "2026-01-05T09:00:00.000Z";
                       smallWithdrawalAt "2026-01-05T09:01:00.000Z";
                       smallWithdrawalAt "2026-01-05T09:02:00.000Z";
                       smallWithdrawalAt "2026-01-05T09:03:00.000Z" ])
               None None.
Definition worldCluster : world := demoWorld {[ 0%nat := accountCluster ]}.

(** ** Interest accrual *)

(** The INTEREST record for an account, at a date. *)
Definition interestRecord (date : string) (a : account) : transaction :=
  let interest := mul (Account.balance a) monthlyRate in
  Tx.Make INTEREST interest date (add (Account.balance a) interest) None None None.

Definition account1000 : account := freshAccount "1000000009" (ofZ 1000).
Definition world1000 : world := demoWorld {[ 0%nat := account1000 ]}.

(** ** The ledger invariant *)

(** The signed effect of a record on the balance. *)
Definition effect (t : transaction) : number :=
  match Tx.type t with
  | DEPOSIT | TRANSFER_IN | INTEREST => Tx.amount t
  | WITHDRAWAL | TRANSFER_OUT => neg (Tx.amount t)
  | OVERDRAFT_ATTEMPT =>
      match Tx.penalty t with Some p => neg p | None => ofZ 0 end
  end.

(** The signed sum of the effects of the records, in append order. *)
Definition effectsSum (l : list transaction) : number :=
  fold_left (fun sum t => add sum (effect t)) l (ofZ 0).

(** The invariant of the specification: the balance is the initial
    deposit plus the signed sum of the effects of all records, and the
    [newBalance] of every record is the balance right after its effect. *)
Definition ledgerConsistent (initialDeposit : number) (a : account) : Prop :=
  Account.balance a = add initialDeposit (effectsSum (Account.txs a))
  /\ forall before t after,
      Account.txs a = before ++ t :: after ->
      Tx.newBalance t = add initialDeposit (effectsSum (before ++ [t])).

(** The operations of the engine that post to the ledger. *)
Inductive operation : Type :=
| Deposit (account : ref) (amount : value)
| Withdraw (account : ref) (amount : value)
| Transfer (from to : ref) (amount : value)
| AccrueInterest (account : ref).

(** One call, with the copy of [calculateSaving] in use. *)
Definition perform (calculateSaving : ref -> M summary) (op : operation) : M unit :=
  match op with
  | Deposit r v => addDeposit r v ;;; ret tt
  | Withdraw r v => withdrawal r v ;;; ret tt
  | Transfer from to v => transferMoney from to v ;;; ret tt
  | AccrueInterest r => calculateSaving r ;;; ret tt
  end.

(** The state after a sequence of calls; a call that raises leaves the
    state it reached and the caller goes on. *)
Definition session (calculateSaving : ref -> M summary) (ops : list operation)
           (w : world) : world :=
  fold_left (fun w op => snd (perform calculateSaving op w)) ops w.





Definition emptyWorld : world := demoWorld ∅.

Definition aliceData : accountData :=
  AccountData.Make (VString "Alice") (VString "Johnson") (VNumber (ofZ 1000)).

Definition aliceWorld : world := snd (generateBankAccount 1 (Some aliceData) emptyWorld).

(** ** Example accounts *)


(** Two accounts in one store. *)
Definition worldPair : world :=
  demoWorld (<[ 3%nat := account300 ]> {[ 1%nat := account100 ]}).

(** ** The registry *)

(** [accounts.some((acc) => acc.accountNumber === accountNumber)] as a
    function of the state. *)
Definition takenIn (w : world) (accountNumber : string) : bool :=
  existsb (fun r => match objects w !! r with
                    | Some a => bool_decide (Account.accountNumber a = Some accountNumber)
                    | None => false
                    end)
          (accounts w).

(** The account number that the [i]-th coming draw gives. *)
Definition candidate (w : world) (i : nat) : string :=
  stringOfZ (random w (draws w + i)%nat + 1000000000).

(** The state after [k] more draws. *)
Definition redrawn (k : nat) (w : world) : world :=
  World (objects w) (accounts w) (clock w) (ticks w) (random w) (draws w + k)%nat
        (dateParse w).






(** A registry whose only account carries the number of the first draw. *)
Definition worldTaken : world :=
  demoWorld {[ 0%nat := freshAccount "2234567890" (ofZ 100) ]}.

(** ** Account status *)


Definition frozenMessage : string := "Account is frozen. Transactions are not allowed.".


(** An account that a manager froze. *)
Definition accountFrozen : account :=
  Account.Make (Some "1000000012") "Jane" "Smith" (ofZ 200) "2026-01-04T09:00:00.000Z"
               (Some []) (Some FROZEN)
               (Some [StatusChange.Make "FREEZE" "MGR-001" "2026-01-04T10:00:00.000Z"]).
Definition worldFrozen : world := demoWorld {[ 0%nat := accountFrozen ]}.


(** The state once the [status] field of the object behind [r] exists. *)
Definition statusEnsured (r : ref) (w : world) : world :=
  match objects w !! r with
  | Some a => store r (Account.set_status (Account.state a) a) w
  | None => w
  end.

(** Balance, transactions and state of every object are those of [w]. *)
Definition sameLedgers (w w' : world) : Prop :=
  forall r a, objects w !! r = Some a ->
    exists a', objects w' !! r = Some a'
               /\ Account.balance a' = Account.balance a
               /\ Account.txs a' = Account.txs a
               /\ Account.state a' = Account.state a.

(** A store with an active and a frozen account. *)
Definition worldMixed : world :=
  demoWorld (<[ 1%nat := account100 ]> {[ 2%nat := accountFrozen ]}).

(** ** Suspicious activity *)

(** The entries at [k] and [k + 2] are at most five minutes apart. *)
Definition windowAt (small : list entry) (k : nat) (x y : Z) : Prop :=
  exists t t', small !! k = Some ((t, Some x) : entry)
               /\ small !! (k + 2)%nat = Some ((t', Some y) : entry)
               /\ y - x <= windowMs.

(** A deposit above the high-value threshold. *)
Definition accountLarge : account :=
  Account.Make (Some "1000000013") "John" "Doe" (ofZ 15100) "2026-01-05T08:00:00.000Z"
               (Some [ Tx.Make DEPOSIT (ofZ 15000) "2026-01-05T09:00:00.000Z"
                               (ofZ 15100) None None None ])
               None None.
Definition worldLarge : world := demoWorld {[ 0%nat := accountLarge ]}.

(** ** Retrieval *)




Definition invertedMessage : string := "startDate must be on/before endDate.".

(** ** Interest *)



(** ** Password validation *)



(** ** Retrieval in the browser bundle *)

(** The options with the type filter left out. *)
Definition unfiltered (o : options) : options :=
  Options.Make (Options.startDate o) (Options.endDate o) None.

(* ##################################################################### *)
(** * Properties *)
(* ##################################################################### *)

(* ===================================================================== *)
(** * Reasoning about runs *)
(* ===================================================================== *)

Section Runs.

Context {A B : Type}.

Lemma bind_return (c : M A) (k : A -> M B) w a w' :
  c w = (Return a, w') -> (x <~ c ;; k x) w = k a w'.
Proof. intros H. unfold bind. now rewrite H. Qed.

Lemma bind_throw (c : M A) (k : A -> M B) w msg w' :
  c w = (Throw msg, w') -> (x <~ c ;; k x) w = (Throw msg, w').
Proof. intros H. unfold bind. now rewrite H. Qed.

End Runs.

Lemma objects_store r a w : objects (store r a w) = <[r := a]> (objects w).
Proof. reflexivity. Qed.

Lemma lookup_store r a w : objects (store r a w) !! r = Some a.
Proof. rewrite objects_store. apply lookup_insert_eq. Qed.

Lemma lookup_store_ne r r' a w :
  r <> r' -> objects (store r a w) !! r' = objects w !! r'.
Proof. intros H. rewrite objects_store. now apply lookup_insert_ne. Qed.

Lemma store_store r a b w : store r b (store r a w) = store r b w.
Proof. unfold store, with_objects; simpl. now rewrite insert_insert_eq. Qed.

Lemma store_same r a w : objects w !! r = Some a -> store r a w = w.
Proof.
  intros H. unfold store, with_objects. rewrite insert_id by exact H.
  now destruct w.
Qed.

Lemma tick_store r a w : tick (store r a w) = store r a (tick w).
Proof. reflexivity. Qed.

Lemma objects_tick w : objects (tick w) = objects w.
Proof. reflexivity. Qed.

Lemma lookup_tick r a w : objects w !! r = Some a -> objects (tick w) !! r = Some a.
Proof. now rewrite objects_tick. Qed.

Lemma now_run w : now w = (Return (clock w (ticks w)), tick w).
Proof. reflexivity. Qed.

Lemma deref_run r a w : objects w !! r = Some a -> deref r w = (Return a, w).
Proof. intros H. unfold deref. now rewrite H. Qed.

Lemma update_run r f a w :
  objects w !! r = Some a -> update r f w = (Return tt, store r (f a) w).
Proof. intros H. unfold update. now rewrite H. Qed.

Lemma push_run r t a w :
  objects w !! r = Some a ->
  push r t w = (Return tt, store r (Account.set_transactions (Account.txs a ++ [t]) a) w).
Proof. intros H. unfold push. now rewrite (update_run r _ a w H). Qed.

Lemma set_transactions_txs a l :
  Account.transactions a = Some l -> Account.set_transactions (Account.txs a) a = a.
Proof. intros H. destruct a; simpl in *. unfold Account.txs; simpl. now rewrite H. Qed.

Lemma ensureTransactions_run r a w :
  objects w !! r = Some a ->
  ensureTransactions r w
  = (Return (Account.txs a), store r (Account.set_transactions (Account.txs a) a) w).
Proof.
  intros H. unfold ensureTransactions.
  rewrite (bind_return _ _ _ _ _ (deref_run _ _ _ H)).
  destruct (Account.transactions a) as [l|] eqn:E.
  - rewrite (set_transactions_txs _ _ E), (store_same _ _ _ H).
    unfold Account.txs. now rewrite E.
  - rewrite (bind_return _ _ _ _ _ (update_run _ _ _ _ H)).
    unfold Account.txs. now rewrite E.
Qed.

Lemma summarise_run r a w :
  objects w !! r = Some a ->
  summarise r w
  = (Return (Summary.Make (Account.accountNumber a) (Account.balance a)
                          (Account.txs a) None None), w).
Proof.
  intros H. unfold summarise. now rewrite (bind_return _ _ _ _ _ (deref_run _ _ _ H)).
Qed.

Lemma requirePositiveNumber_run v fieldName w :
  match validAmount v with
  | Some n => v = VNumber n /\ requirePositiveNumber v fieldName w = (Return n, w)
  | None => exists msg, requirePositiveNumber v fieldName w = (Throw msg, w)
  end.
Proof.
  destruct v as [n| | | |]; simpl; try (eexists; reflexivity).
  destruct (isNaN n); [eexists; reflexivity|].
  destruct (leb n (ofZ 0)); [eexists; reflexivity|]. now split.
Qed.



Create HintDb run.
#[global] Hint Resolve lookup_store lookup_tick : run.

(** One step of a run: the first computation of a sequence returns. *)
Ltac step_with H := rewrite (bind_return _ _ _ _ _ H).
Ltac step :=
  first
    [ rewrite (bind_return _ _ _ _ _ (now_run _))
    | erewrite (bind_return (deref _)) by (apply deref_run; eauto with run)
    | erewrite (bind_return (update _ _)) by (apply update_run; eauto with run)
    | erewrite (bind_return (push _ _)) by (apply push_run; eauto with run)
    | erewrite (bind_return (ensureTransactions _))
        by (apply ensureTransactions_run; eauto with run)
    | erewrite (bind_return (summarise _)) by (apply summarise_run; eauto with run) ];
  rewrite ?tick_store, ?store_store.

(* ===================================================================== *)
(** * Withdrawal *)
(* ===================================================================== *)






(* ===================================================================== *)
(** * Transfer *)
(* ===================================================================== *)

Lemma lookup_store_other r r' a b w :
  r <> r' -> objects w !! r' = Some b -> objects (store r a w) !! r' = Some b.
Proof. intros H H'. now rewrite lookup_store_ne. Qed.

#[global] Hint Resolve lookup_store_other : run.

Lemma store_comm r r' a b w :
  r <> r' -> store r a (store r' b w) = store r' b (store r a w).
Proof.
  intros H. unfold store, with_objects; simpl. f_equal.
  now apply insert_insert_ne.
Qed.

Lemma identified_inv w r :
  identified w r = true ->
  exists a s, objects w !! r = Some a /\ Account.accountNumber a = Some s /\ s <> "".
Proof.
  unfold identified. destruct (objects w !! r) as [a|]; simpl; [|discriminate].
  destruct (Account.accountNumber a) as [s|] eqn:E; simpl; [|discriminate].
  intros H. exists a, s. repeat split; try assumption.
  apply negb_true_iff, bool_decide_eq_false_1 in H. exact H.
Qed.

Lemma requirePositiveNumber_msg v w msg w' :
  requirePositiveNumber v "Amount" w = (Throw msg, w') ->
  w' = w /\ (msg = "Amount must be a number." \/ msg = "Amount must be greater than zero.").
Proof.
  destruct v as [n| | | |]; simpl; unfold throw;
    try (intros [= <- <-]; split; [reflexivity | now left]).
  destruct (isNaN n); [intros [= <- <-]; split; [reflexivity | now left]|].
  destruct (leb n (ofZ 0)); [intros [= <- <-]; split; [reflexivity | now right]|].
  discriminate.
Qed.

(** The run of [transferMoney] once the validation has passed. *)
Lemma transferMoney_run w from to n f t :
  objects w !! from = Some f -> objects w !! to = Some t ->
  identified w from = true -> identified w to = true ->
  validAmount (VNumber n) = Some n ->
  gtb n (Account.balance f) = false ->
  exists res, transferMoney from to (VNumber n) w = (Return res, transferred w from to n).
Proof.
  intros Hf Ht If It V G. unfold transferMoney.
  unfold identified in If, It.
  assert (identifierOf from w = (Return (a ← objects w !! from; Account.accountNumber a), w))
    as R1 by reflexivity.
  assert (identifierOf to w = (Return (a ← objects w !! to; Account.accountNumber a), w))
    as R2 by reflexivity.
  step_with R1. step_with R2. rewrite If, It. cbn [negb orb].
  pose proof (requirePositiveNumber_run (VNumber n) "Amount" w) as R.
  rewrite V in R. destruct R as [_ R]. step_with R.
  step. rewrite G.
  unfold transferred, debited. rewrite Hf, Ht.
  destruct (decide (from = to)) as [->|Hne].
  - assert (t = f) as -> by congruence.
    step. step. step. step. step. step. step. step. step. step. step. step.
    erewrite (bind_return (summarise _)) by (apply summarise_run; apply lookup_store).
    erewrite (bind_return (summarise _)) by (apply summarise_run; apply lookup_store).
    unfold credited. rewrite !lookup_store. rewrite ?tick_store, ?store_store.
    eexists. reflexivity.
  - assert (to <> from) as Hne' by congruence.
    step. step. step. step. step. step. step. step. step. step. step. step.
    erewrite (bind_return (summarise _)) by (apply summarise_run; eauto with run).
    erewrite (bind_return (summarise _)) by (apply summarise_run; eauto with run).
    unfold credited. rewrite lookup_store, (lookup_store_ne _ _ _ _ Hne).
    rewrite objects_tick, Ht.
    eexists. unfold ret. f_equal.
    unfold store, tick, with_objects, posted; simpl. f_equal.
    apply map_eq. intros k.
    repeat (rewrite lookup_insert; case_decide; subst; try congruence);
      reflexivity.
Qed.
Lemma transferMoney_cases w from to amount :
  (transferRejected w from to amount
   /\ exists msg, transferMoney from to amount w = (Throw msg, w)
                  /\ In msg transferErrors)
  \/ (~ transferRejected w from to amount
      /\ exists n f t res,
          amount = VNumber n /\ validAmount amount = Some n
          /\ objects w !! from = Some f /\ objects w !! to = Some t
          /\ transferMoney from to amount w = (Return res, transferred w from to n)).
Proof.
  assert (identifierOf from w = (Return (a ← objects w !! from; Account.accountNumber a), w))
    as R1 by reflexivity.
  assert (identifierOf to w = (Return (a ← objects w !! to; Account.accountNumber a), w))
    as R2 by reflexivity.
  destruct (identified w from) eqn:If.
  2:{ left. split; [now left|]. exists "Account must be available!".
      split; [|now left]. unfold transferMoney. step_with R1. step_with R2.
      unfold identified in If. now rewrite If. }
  destruct (identified w to) eqn:It.
  2:{ left. split; [now right; left|]. exists "Account must be available!".
      split; [|now left]. unfold transferMoney. step_with R1. step_with R2.
      unfold identified in If, It. now rewrite If, It. }
  destruct (identified_inv _ _ If) as (f & sf & Hf & _).
  destruct (identified_inv _ _ It) as (t & st & Ht & _).
  pose proof (requirePositiveNumber_run amount "Amount" w) as R.
  destruct (validAmount amount) as [n|] eqn:V.
  2:{ left. split; [now right; right; left|]. destruct R as [msg R].
      exists msg. split.
      - unfold transferMoney. step_with R1. step_with R2.
        unfold identified in If, It. rewrite If, It. cbn [negb orb].
        now rewrite (bind_throw _ _ _ _ _ R).
      - destruct (requirePositiveNumber_msg _ _ _ _ R) as [_ [-> | ->]];
          [right; now left | right; right; now left]. }
  destruct R as [-> R].
  destruct (gtb n (Account.balance f)) eqn:G.
  - left. split; [right; right; right; now exists n, f|].
    exists "Insufficient funds for transfer.". split; [|now do 3 right; left].
    unfold transferMoney. step_with R1. step_with R2.
    unfold identified in If, It. rewrite If, It. cbn [negb orb].
    step_with R. step. now rewrite G.
  - right. split.
    + intros [H | [H | [H | (n' & f' & Hn & Hf' & Hg)]]]; try congruence.
    + destruct (transferMoney_run w from to n f t Hf Ht If It V G) as [res Hres].
      now exists n, f, t, res.
Qed.

(** C4.  [transferMoney] raises exactly when an account has no identifier,
    or the amount is not a positive number, or the amount exceeds the
    balance of the source; when it raises, the state is the one it was
    called in; when it does not, the debit and the credit have both been
    posted. *)
Theorem transferMoney_validation_precedes_mutation
        (w : world) (from to : ref) (amount : value) :
  ((exists msg w', transferMoney from to amount w = (Throw msg, w'))
   <-> transferRejected w from to amount)
  /\ (forall msg w',
         transferMoney from to amount w = (Throw msg, w') ->
         w' = w /\ In msg transferErrors)
  /\ (forall res w',
         transferMoney from to amount w = (Return res, w') ->
         exists n f t,
           amount = VNumber n /\ objects w !! from = Some f /\ objects w !! to = Some t
           /\ w' = transferred w from to n
           /\ objects (debited w from to n) !! from
              = Some (posted (Tx.Make TRANSFER_OUT n (clock w (ticks w))
                                      (sub (Account.balance f) n)
                                      None (Account.accountNumber t) None)
                             (sub (Account.balance f) n) f)
           /\ forall t', objects (debited w from to n) !! to = Some t' ->
                objects w' !! to
                = Some (posted (Tx.Make TRANSFER_IN n (clock w (S (ticks w)))
                                        (add (Account.balance t') n)
                                        None None (Account.accountNumber f))
                               (add (Account.balance t') n) t')
                /\ (from <> to ->
                    t' = t /\ objects w' !! from = objects (debited w from to n) !! from)).
Proof.
  destruct (transferMoney_cases w from to amount)
    as [[Rej (msg & Hrun & Hmsg)] | [NRej (n & f & t & res & -> & V & Hf & Ht & Hrun)]].
  - split; [split; [intros _; exact Rej | intros _; now exists msg, w]|].
    split.
    + intros msg' w' H. rewrite Hrun in H. now injection H as <- <-.
    + intros res w' H. rewrite Hrun in H. discriminate.
  - split; [split; [intros (msg & w' & H); rewrite Hrun in H; discriminate
                   | intros H; now destruct NRej]|].
    split.
    + intros msg' w' H. rewrite Hrun in H. discriminate.
    + intros res' w' H. rewrite Hrun in H. injection H as <- <-.
      assert (objects (debited w from to n) !! from
              = Some (posted (Tx.Make TRANSFER_OUT n (clock w (ticks w))
                                      (sub (Account.balance f) n)
                                      None (Account.accountNumber t) None)
                             (sub (Account.balance f) n) f)) as Hd
          by (unfold debited; rewrite Hf, Ht; apply lookup_store).
      exists n, f, t.
      split; [reflexivity|]. split; [assumption|]. split; [assumption|].
      split; [reflexivity|]. split; [exact Hd|].
      intros t' H. split.
      * unfold transferred, credited. rewrite Hd, H. rewrite lookup_store.
        unfold debited. rewrite Hf, Ht. reflexivity.
      * intros Hne. assert (to <> from) as Hne' by congruence. split.
        -- unfold debited in H. rewrite Hf, Ht in H.
           rewrite (lookup_store_ne _ _ _ _ Hne), objects_tick in H. congruence.
        -- unfold transferred, credited. rewrite Hd, H.
           now rewrite (lookup_store_ne _ _ _ _ Hne'), objects_tick.
Qed.









(* ===================================================================== *)
(** * Freeze and unfreeze *)
(* ===================================================================== *)


Lemma ensureStatus_run r a w :
  objects w !! r = Some a ->
  ensureStatus r w = (Return tt, store r (Account.set_status (Account.state a) a) w).
Proof.
  intros H. unfold ensureStatus. step.
  destruct (Account.status a) as [s|] eqn:E.
  - replace (Account.set_status (Account.state a) a) with a.
    + now rewrite (store_same _ _ _ H).
    + destruct a; simpl in *. unfold Account.state; simpl. now rewrite E.
  - rewrite (update_run _ _ _ _ H). unfold Account.state. now rewrite E.
Qed.


Lemma isNullish_run r a w :
  objects w !! r = Some a -> isNullish r w = (Return false, w).
Proof. intros H. unfold isNullish. now rewrite H. Qed.




(* ===================================================================== *)
(** * Daily withdrawal limit *)
(* ===================================================================== *)

Lemma assertAccountNotFrozen_run r a w :
  objects w !! r = Some a ->
  Account.status a <> Some FROZEN ->
  assertAccountNotFrozen r w
  = (Return tt, store r (Account.set_status (Account.state a) a) w).
Proof.
  intros H S. unfold assertAccountNotFrozen.
  step_with (ensureStatus_run _ _ _ H). step.
  rewrite bool_decide_eq_false_2; [reflexivity|].
  simpl. unfold Account.state. destruct (Account.status a) as [[|]|]; simpl; congruence.
Qed.


Lemma materialised_guarded a : Account.materialised (guarded a) = Account.materialised a.
Proof. reflexivity. Qed.



(* ===================================================================== *)
(** * Retrieval *)
(* ===================================================================== *)

Lemma parseBoundaryMs_run v e w :
  parseBoundaryMs v e w
  = match boundaryOf (dateParse w) v e with
    | Return b => (Return b, w)
    | Throw msg => (Throw msg, w)
    end.
Proof.
  unfold parseBoundaryMs, boundaryOf. destruct v as [value|]; [|reflexivity].
  destruct (bool_decide (value = "")); [reflexivity|].
  destruct (isDateOnly value); [reflexivity|].
  unfold bind, getTime. now destruct (dateParse w value).
Qed.

Lemma normalizeType_run type w :
  normalizeType type w
  = match typeFilterOf type with
    | Return b => (Return b, w)
    | Throw msg => (Throw msg, w)
    end.
Proof.
  unfold normalizeType, typeFilterOf. destruct type as [t|]; [|reflexivity].
  unfold bind, requireNonEmptyString. now destruct (bool_decide (trim t = "")).
Qed.


(** ** Insertion keeps the elements and the order *)

Section Sorting.

Context {A : Type} (cmp : A -> A -> option Z).

Lemma insertSorted_perm x l : Permutation (insertSorted cmp x l) (x :: l).
Proof.
  induction l as [|y l IH]; simpl; [reflexivity|].
  destruct (cmp x y) as [v|]; [|reflexivity].
  destruct (0 <? v); [|reflexivity].
  rewrite IH. apply perm_swap.
Qed.

Lemma sortBy_perm l : Permutation (sortBy cmp l) l.
Proof.
  induction l as [|x l IH]; simpl; [reflexivity|].
  rewrite insertSorted_perm. now constructor.
Qed.

Variable key : A -> Z.

Lemma insertSorted_sorted x l :
  (forall y, In y l -> cmp x y = Some (key y - key x)) ->
  StronglySorted (fun a b => key b <= key a) l ->
  StronglySorted (fun a b => key b <= key a) (insertSorted cmp x l).
Proof.
  induction l as [|y l IH]; intros C S; simpl.
  - repeat constructor.
  - rewrite (C y (or_introl eq_refl)).
    apply StronglySorted_inv in S as [S F].
    destruct (0 <? key y - key x) eqn:L.
    + constructor.
      * apply IH; [|assumption]. intros z Hz. apply C. now right.
      * rewrite (insertSorted_perm x l). constructor; [|assumption].
        apply Z.ltb_lt in L. lia.
    + apply Z.ltb_ge in L. constructor; [now constructor|].
      constructor; [lia|].
      eapply Forall_impl; [|exact F]. simpl. intros z Hz. lia.
Qed.

Lemma sortBy_sorted l :
  (forall x y, In x l -> In y l -> cmp x y = Some (key y - key x)) ->
  StronglySorted (fun a b => key b <= key a) (sortBy cmp l).
Proof.
  induction l as [|x l IH]; intros C; simpl; [constructor|].
  apply insertSorted_sorted.
  - intros y Hy. apply C; [now left|].
    right. apply (Permutation_in _ (sortBy_perm l) Hy).
  - apply IH. intros y z Hy Hz. apply C; now right.
Qed.

End Sorting.

(** ** Calendar-date bounds *)









Lemma StronglySorted_weaken {A} (R R' : A -> A -> Prop) l :
  (forall x y, In x l -> In y l -> R x y -> R' x y) ->
  StronglySorted R l -> StronglySorted R' l.
Proof.
  intros W S. induction S as [|x l S IH F]; constructor.
  - apply IH. intros y z Hy Hz. apply W; now right.
  - rewrite Forall_forall in *. intros y Hy.
    apply W; [now left | now right | now apply F].
Qed.



(* ===================================================================== *)
(** * Suspicious activity *)
(* ===================================================================== *)

Lemma checkForSuspiciousActivity_run w r a :
  objects w !! r = Some a ->
  checkForSuspiciousActivity r w
  = (let alerts := highValueAlerts (Account.txs a)
                   ++ rapidAlerts (smallWithdrawals (dateParse w) (Account.txs a)) in
     (Return (Report.Make (0 <? Z.of_nat (List.length alerts)) alerts),
      store r (Account.set_transactions (Account.txs a) a) w)).
Proof.
  intros H. unfold checkForSuspiciousActivity. step. step. reflexivity.
Qed.

Lemma scanWindow_timed ms_i i j rest al :
  ms_i <> None -> Forall timed rest ->
  scanWindow ms_i i j rest = Some al ->
  exists minutes, al = RapidWithdrawals (Z.of_nat j - Z.of_nat i + 1) minutes.
Proof.
  intros Hi F. destruct rest as [|[t ms_j] rest]; simpl; [discriminate|].
  inversion F as [|? ? Hj _]; subst. unfold timed in Hj; simpl in Hj.
  destruct ms_i as [x|]; [|congruence]. destruct ms_j as [y|]; [|congruence].
  simpl. destruct (y - x <=? windowMs) eqn:L.
  - intros [= <-]. eauto.
  - apply Z.leb_gt in L. apply Z.ltb_lt in L. rewrite L. discriminate.
Qed.

Lemma scanFrom_timed small : forall rest i al,
  Forall timed small -> Forall timed rest ->
  scanFrom small i rest = Some al ->
  exists minutes, al = RapidWithdrawals 3 minutes.
Proof.
  induction rest as [|[t ms_i] rest IH]; intros i al Fs Fr; simpl; [discriminate|].
  inversion Fr as [|? ? Hi Fr']; subst.
  destruct (scanWindow ms_i i (i + 2) (drop (i + 2) small)) as [al'|] eqn:W.
  - intros [= <-].
    destruct (scanWindow_timed _ _ _ _ _ Hi (Forall_drop _ _ _ Fs) W) as [m ->].
    exists m. f_equal. lia.
  - now apply IH.
Qed.

Lemma highValueAlerts_kind l c m : ~ In (RapidWithdrawals c m) (highValueAlerts l).
Proof.
  unfold highValueAlerts. rewrite in_flat_map. intros (t & _ & H).
  destruct (gtb (Tx.amount t) (ofZ 10000)); simpl in H; [|contradiction].
  destruct H as [H|[]]. discriminate.
Qed.

(** C10, as amended.  When the date of every small withdrawal parses, a
    rapid-withdrawal alert always reports 3 transactions: for each start
    index the scan looks at the window that ends two places further and
    stops there, whether that window spans at most five minutes or more. *)
Theorem rapid_alert_reports_three (w : world) (r : ref) (a : account) :
  objects w !! r = Some a ->
  (forall t, In t (Account.txs a) -> isSmallWithdrawal t = true ->
             dateParse w (Tx.date t) <> None) ->
  exists report w',
    checkForSuspiciousActivity r w = (Return report, w')
    /\ (forall count minutes,
           In (RapidWithdrawals count minutes) (Report.alerts report) -> count = 3)
    /\ (forall x y i j t rest,
           scanWindow (Some x) i j ((t, Some y) :: rest)
           = if y - x <=? windowMs
             then Some (RapidWithdrawals (Z.of_nat j - Z.of_nat i + 1)
                                         (Z.max 1 (roundDiv (y - x) 60000)))
             else None).
Proof.
  intros H P. eexists _, _. split; [apply (checkForSuspiciousActivity_run _ _ _ H)|].
  split.
  - intros count minutes. cbv zeta. cbn [Report.alerts]. rewrite in_app_iff.
    intros [Hh | Hr]; [now apply highValueAlerts_kind in Hh|].
    unfold rapidAlerts in Hr.
    destruct (scanFrom _ 0 _) as [al|] eqn:S; [|contradiction].
    destruct Hr as [-> | []].
    assert (Forall timed (smallWithdrawals (dateParse w) (Account.txs a))) as F.
    { apply List.Forall_forall. intros e He. unfold smallWithdrawals in He.
      apply (Permutation_in _ (sortBy_perm _ _)) in He.
      apply in_map_iff in He as (t & <- & Ht). apply filter_In in Ht as [Ht Hs].
      unfold timed; simpl. now apply P. }
    destruct (scanFrom_timed _ _ _ _ F F S) as [m [= -> _]]. reflexivity.
  - intros x y i j t rest. simpl.
    destruct (y - x <=? windowMs) eqn:L; [reflexivity|].
    apply Z.leb_gt in L. apply Z.ltb_lt in L. now rewrite L.
Qed.

(** C10, as stated, fails: with a date that does not parse among the small
    withdrawals, the span to it is [NaN], neither test of the inner loop
    holds, and the scan goes on to the next index; the alert then reports
    4 transactions. *)
Lemma rapid_alert_reports_four :
  exists report w',
    checkForSuspiciousActivity 0%nat worldGap = (Return report, w')
    /\ Report.alerts report = [RapidWithdrawals 4 1]
    /\ ~ (forall count minutes,
             In (RapidWithdrawals count minutes) (Report.alerts report) -> count = 3).
Proof.
  eexists _, _. split; [apply checkForSuspiciousActivity_run; vm_compute; reflexivity|].
  split; [vm_compute; reflexivity|].
  intros C. specialize (C 4 1). cbv zeta in C. cbn [Report.alerts] in C.
  assert (In (RapidWithdrawals 4 1)
             (highValueAlerts (Account.txs accountGap)
              ++ rapidAlerts (smallWithdrawals (dateParse worldGap)
                                               (Account.txs accountGap)))) as I
      by (vm_compute; now left).
  specialize (C I). discriminate.
Qed.

Lemma rapid_alert_reports_three_witness :
  exists report w',
    checkForSuspiciousActivity 0%nat worldCluster = (Return report, w')
    /\ (forall count minutes,
           In (RapidWithdrawals count minutes) (Report.alerts report) -> count = 3)
    /\ Report.alerts report = [RapidWithdrawals 3 2].
Proof.
  destruct (rapid_alert_reports_three worldCluster 0%nat accountCluster)
    as (report & w' & R & C & _).
  - vm_compute; reflexivity.
  - intros t [<- | [<- | [<- | [<- | []]]]] _; vm_compute; discriminate.
  - exists report, w'. split; [exact R|]. split; [exact C|].
    assert (fst (checkForSuspiciousActivity 0%nat worldCluster)
            = Return (Report.Make true [RapidWithdrawals 3 2])) as E
        by (vm_compute; reflexivity).
    rewrite R in E. simpl in E. injection E as ->. reflexivity.
Defined.

(* ===================================================================== *)
(** * Interest accrual *)
(* ===================================================================== *)

(** ** The browser bundle *)



(** ** src/services/interestService.js *)

(** [InterestService.calculateSaving] on a low balance: no message. *)
Lemma InterestService_calculateSaving_low w r a :
  objects w !! r = Some a ->
  leb (Account.balance a) (ofZ 500) = true ->
  InterestService.calculateSaving r w
  = (Return (Summary.Make (Account.accountNumber a) (Account.balance a) (Account.txs a)
                          None None),
     store r (Account.set_transactions (Account.txs a) a) w).
Proof.
  intros H L. unfold InterestService.calculateSaving. step. step.
  cbn [Account.balance Account.set_transactions]. now rewrite L.
Qed.

(** [InterestService.calculateSaving] above 500: the INTEREST record is
    appended and the returned summary shows the increased balance, but the
    balance stored in the account is the one before the call. *)
Lemma InterestService_calculateSaving_high w r a :
  objects w !! r = Some a ->
  leb (Account.balance a) (ofZ 500) = false ->
  let interest := mul (Account.balance a) monthlyRate in
  let a' := Account.set_transactions
              (Account.txs a ++ [interestRecord (clock w (ticks w)) a]) a in
  InterestService.calculateSaving r w
  = (Return (Summary.Make (Account.accountNumber a) (add (Account.balance a) interest)
                          (Account.txs a') None None),
     store r a' (tick w))
  /\ Account.balance a' = Account.balance a.
Proof.
  intros H L interest a'. split; [|reflexivity].
  unfold InterestService.calculateSaving. step. step.
  cbn [Account.balance Account.set_transactions]. rewrite L.
  step. step. step. reflexivity.
Qed.


(** C2, on [InterestService.calculateSaving], at balance 1000: the record
    is appended and the summary shows 1001.67, but the stored balance is
    still 1000, and the summary has no [interestApplied]. *)
Theorem InterestService_calculateSaving_at_1000 :
  exists s a',
    InterestService.calculateSaving 0%nat world1000
    = (Return s, store 0%nat a' (tick world1000))
    /\ Account.txs a'
       = [Tx.Make INTEREST (mul (ofZ 1000) monthlyRate) "2026-01-05T10:00:00.000Z"
                  (add (ofZ 1000) (mul (ofZ 1000) monthlyRate)) None None None]
    /\ Account.balance a' = ofZ 1000
    /\ Account.balance a' <> add (ofZ 1000) (mul (ofZ 1000) monthlyRate)
    /\ Summary.balance s = add (ofZ 1000) (mul (ofZ 1000) monthlyRate)
    /\ Summary.interestApplied s = None.
Proof.
  eexists _, _.
  split; [apply (InterestService_calculateSaving_high world1000 0%nat account1000);
          vm_compute; reflexivity|].
  repeat split. vm_compute. intros [= E].
Qed.

(** On a balance of 500 the result of [InterestService.calculateSaving]
    carries no message. *)
Lemma InterestService_calculateSaving_at_500 :
  exists s w',
    InterestService.calculateSaving 0%nat
      (demoWorld {[ 0%nat := freshAccount "1000000010" (ofZ 500) ]})
    = (Return s, w')
    /\ Summary.message s = None.
Proof.
  eexists _, _.
  split; [apply InterestService_calculateSaving_low; vm_compute; reflexivity|].
  reflexivity.
Qed.

(* ===================================================================== *)
(** * The ledger invariant *)
(* ===================================================================== *)

(** ** Arithmetic of the extended numbers *)















(** ** Each operation only posts records *)








Lemma snd_then_ret {A} (c : M A) w : objects (snd ((c ;;; ret tt) w)) = objects (snd (c w)).
Proof. unfold bind. now destruct (c w) as [[x|msg] w']. Qed.



(** ** Creation *)



Lemma alice_created :
  generateBankAccount 1 (Some aliceData) emptyWorld = (Return (Some 0%nat), aliceWorld).
Proof.
  transitivity (fst (generateBankAccount 1 (Some aliceData) emptyWorld), aliceWorld);
    [apply surjective_pairing|].
  f_equal.
Qed.


(** C1, on src/services/interestService.js: an account created by the
    registry with 1000, after one call of [calculateSaving], holds an
    INTEREST record of 1.67 with [newBalance] 1001.67 while its balance is
    1000; the invariant does not hold. *)
Theorem InterestService_ledger_inconsistent :
  generateBankAccount 1 (Some aliceData) emptyWorld = (Return (Some 0%nat), aliceWorld)
  /\ exists a t,
      objects (session InterestService.calculateSaving [AccrueInterest 0%nat] aliceWorld)
        !! 0%nat = Some a
      /\ Account.txs a = [t]
      /\ Tx.type t = INTEREST
      /\ Tx.amount t = mul (ofZ 1000) monthlyRate
      /\ Tx.newBalance t = add (ofZ 1000) (mul (ofZ 1000) monthlyRate)
      /\ Account.balance a = ofZ 1000
      /\ Account.balance a <> Tx.newBalance t
      /\ ~ ledgerConsistent (ofZ 1000) a.
Proof.
  split; [exact alice_created|].
  destruct (InterestService_calculateSaving_high aliceWorld 0%nat
              (Account.Make (Some "2234567890") "Alice" "Johnson" (ofZ 1000)
                            "2026-01-05T10:00:00.000Z" None None None))
    as [R _]; [vm_compute; reflexivity | vm_compute; reflexivity |].
  cbv zeta in R.
  eexists _, _. split.
  { unfold session. simpl fold_left. rewrite snd_then_ret, R. apply lookup_store. }
  split; [reflexivity|]. split; [reflexivity|]. split; [reflexivity|].
  split; [reflexivity|]. split; [reflexivity|].
  split.
  - vm_compute. intros [= E].
  - intros [B _]. vm_compute in B. injection B as E. discriminate.
Qed.

(* ===================================================================== *)
(** * Deposits *)
(* ===================================================================== *)

Lemma requirePositiveNumber_throws v fieldName w msg w' :
  requirePositiveNumber v fieldName w = (Throw msg, w') ->
  w' = w /\ validAmount v = None
  /\ (msg = fieldName +:+ " must be a number."
      \/ msg = fieldName +:+ " must be greater than zero.").
Proof.
  destruct v as [n| | | |]; simpl; unfold throw;
    try (intros [= <- <-]; repeat split; now left).
  destruct (isNaN n); [intros [= <- <-]; repeat split; now left|].
  destruct (leb n (ofZ 0)); [intros [= <- <-]; repeat split; now right|].
  discriminate.
Qed.






(* ===================================================================== *)
(** * Transfers between two accounts *)
(* ===================================================================== *)



(* ===================================================================== *)
(** * The registry *)
(* ===================================================================== *)

Lemma numberTaken_run s w : numberTaken s w = (Return (takenIn w s), w).
Proof. reflexivity. Qed.


Lemma redrawn_drawn k w : redrawn k (drawn w) = redrawn (S k) w.
Proof. unfold redrawn, drawn; simpl. f_equal. lia. Qed.

(** X4.  The loop of [generateUniqueAccountNumber] returns the first drawn
    number that no account of the registry carries: when the first [k]
    draws collide and the next one does not, it returns that one after
    [k + 1] draws, and it changes nothing but the position in the random
    stream. *)
Theorem generateUniqueAccountNumber_first_free (fuel : nat) : forall (w : world) (k : nat),
  (k < fuel)%nat ->
  (forall i, (i < k)%nat -> takenIn w (candidate w i) = true) ->
  takenIn w (candidate w k) = false ->
  generateUniqueAccountNumber fuel w
  = (Return (Some (candidate w k)), redrawn (S k) w).
Proof.
  induction fuel as [|fuel IH]; intros w k Hk Htaken Hfree; [lia|].
  cbn [generateUniqueAccountNumber].
  unfold bind at 1. unfold mathRandom.
  unfold bind at 1. rewrite numberTaken_run.
  assert (forall i, candidate (drawn w) i = candidate w (S i)) as C.
  { intros i. unfold candidate, drawn; simpl. do 2 f_equal. f_equal. lia. }
  assert (stringOfZ (random w (draws w) + 1000000000) = candidate w 0) as C0.
  { unfold candidate. now rewrite Nat.add_0_r. }
  rewrite C0. change (takenIn (drawn w) (candidate w 0)) with (takenIn w (candidate w 0)).
  destruct k as [|k].
  - rewrite Hfree. unfold ret. f_equal. unfold redrawn, drawn; simpl. f_equal. lia.
  - rewrite (Htaken 0%nat) by lia.
    rewrite (IH (drawn w) k); [| lia | |].
    + rewrite C. now rewrite redrawn_drawn.
    + intros i Hi. rewrite C. change (takenIn (drawn w)) with (takenIn w).
      apply Htaken. lia.
    + rewrite C. exact Hfree.
Qed.

Lemma generateUniqueAccountNumber_first_free_witness :
  generateUniqueAccountNumber 3 worldTaken
  = (Return (Some (candidate worldTaken 1)), redrawn 2 worldTaken)
  /\ candidate worldTaken 0 = "2234567890"
  /\ candidate worldTaken 1 = "2234567891".
Proof.
  split; [|split; reflexivity].
  apply (generateUniqueAccountNumber_first_free 3 worldTaken 1).
  - lia.
  - intros i Hi. assert (i = 0%nat) as -> by lia. vm_compute. reflexivity.
  - vm_compute. reflexivity.
Defined.










(* ===================================================================== *)
(** * Account status *)
(* ===================================================================== *)









(* ===================================================================== *)
(** * Freeze-aware wrappers *)
(* ===================================================================== *)

Lemma assertAccountNotFrozen_frozen r a w :
  objects w !! r = Some a ->
  Account.status a = Some FROZEN ->
  assertAccountNotFrozen r w = (Throw frozenMessage, w).
Proof.
  intros H S. unfold assertAccountNotFrozen.
  step_with (ensureStatus_run _ _ _ H). step.
  assert (Account.set_status (Account.state a) a = a) as E.
  { destruct a; simpl in *. unfold Account.state; simpl. now rewrite S. }
  rewrite E, (store_same _ _ _ H). now rewrite (bool_decide_eq_true_2 _ S).
Qed.

(** X11.  [addDepositSafe] on a frozen account raises the frozen-account
    error whatever the amount, valid or not, and changes nothing; on an
    account that is not frozen it is [addDeposit], run once the status
    field exists. *)
Theorem addDepositSafe_guard (w : world) (r : ref) (a : account) (v : value) :
  objects w !! r = Some a ->
  (Account.status a = Some FROZEN ->
   addDepositSafe r v w = (Throw frozenMessage, w))
  /\ (Account.status a <> Some FROZEN ->
      addDepositSafe r v w
      = addDeposit r v (store r (Account.set_status (Account.state a) a) w)
      /\ Account.state (Account.set_status (Account.state a) a) = Account.state a).
Proof.
  intros H. split.
  - intros S. unfold addDepositSafe.
    now rewrite (bind_throw _ _ _ _ _ (assertAccountNotFrozen_frozen _ _ _ H S)).
  - intros S. split; [|reflexivity]. unfold addDepositSafe.
    now rewrite (bind_return _ _ _ _ _ (assertAccountNotFrozen_run _ _ _ H S)).
Qed.

Lemma addDepositSafe_guard_witness :
  addDepositSafe 0%nat (VNumber (ofZ 100)) worldFrozen = (Throw frozenMessage, worldFrozen)
  /\ addDepositSafe 0%nat (VNumber (ofZ 100)) world100
     = addDeposit 0%nat (VNumber (ofZ 100))
                  (store 0%nat (Account.set_status ACTIVE account100) world100).
Proof.
  split.
  - apply (addDepositSafe_guard worldFrozen 0%nat accountFrozen);
      [vm_compute; reflexivity | reflexivity].
  - apply (addDepositSafe_guard world100 0%nat account100);
      [vm_compute; reflexivity | discriminate].
Defined.



Lemma sameLedgers_refl w : sameLedgers w w.
Proof. intros r a H. now exists a. Qed.

Lemma sameLedgers_statusEnsured r w : sameLedgers w (statusEnsured r w).
Proof.
  unfold statusEnsured. destruct (objects w !! r) as [a|] eqn:H;
    [|apply sameLedgers_refl].
  intros r' b Hb. destruct (decide (r = r')) as [<-|Hne].
  - rewrite lookup_store. eexists. split; [reflexivity|].
    assert (b = a) as -> by congruence. now repeat split.
  - rewrite (lookup_store_ne _ _ _ _ Hne). now exists b.
Qed.

Lemma assertAccountNotFrozen_ensures r a w :
  objects w !! r = Some a ->
  Account.status a <> Some FROZEN ->
  assertAccountNotFrozen r w = (Return tt, statusEnsured r w).
Proof.
  intros H S. unfold statusEnsured. rewrite H.
  now apply assertAccountNotFrozen_run.
Qed.

(** X13.  [transferMoneySafe] raises the frozen-account error when the
    source or the destination is frozen, before any balance or record is
    touched; when neither is frozen it is [transferMoney], run once the
    status fields of both exist. *)
Theorem transferMoneySafe_guard
        (w : world) (from to : ref) (f t : account) (v : value) :
  objects w !! from = Some f -> objects w !! to = Some t ->
  (Account.status f = Some FROZEN \/ Account.status t = Some FROZEN ->
   exists w', transferMoneySafe from to v w = (Throw frozenMessage, w')
              /\ sameLedgers w w')
  /\ (Account.status f <> Some FROZEN -> Account.status t <> Some FROZEN ->
      transferMoneySafe from to v w
      = transferMoney from to v (statusEnsured to (statusEnsured from w))
      /\ sameLedgers w (statusEnsured to (statusEnsured from w))).
Proof.
  intros Hf Ht. split.
  - intros Fz. unfold transferMoneySafe.
    destruct (decide (Account.status f = Some FROZEN)) as [Sf|Sf].
    + exists w. split; [|apply sameLedgers_refl].
      now rewrite (bind_throw _ _ _ _ _ (assertAccountNotFrozen_frozen _ _ _ Hf Sf)).
    + destruct Fz as [Sf'|St]; [contradiction|].
      assert (from <> to) as Hne by (intros ->; congruence).
      exists (statusEnsured from w). split; [|apply sameLedgers_statusEnsured].
      rewrite (bind_return _ _ _ _ _ (assertAccountNotFrozen_ensures _ _ _ Hf Sf)).
      assert (objects (statusEnsured from w) !! to = Some t) as Ht'.
      { unfold statusEnsured. rewrite Hf. now rewrite lookup_store_ne. }
      now rewrite (bind_throw _ _ _ _ _ (assertAccountNotFrozen_frozen _ _ _ Ht' St)).
  - intros Sf St. unfold transferMoneySafe.
    rewrite (bind_return _ _ _ _ _ (assertAccountNotFrozen_ensures _ _ _ Hf Sf)).
    assert (exists t', objects (statusEnsured from w) !! to = Some t'
                       /\ Account.status t' <> Some FROZEN) as (t' & Ht' & St').
    { unfold statusEnsured. rewrite Hf. destruct (decide (from = to)) as [<-|Hne].
      - rewrite lookup_store. eexists. split; [reflexivity|].
        simpl. unfold Account.state. destruct (Account.status f) as [[|]|]; simpl; congruence.
      - rewrite (lookup_store_ne _ _ _ _ Hne). now exists t. }
    rewrite (bind_return _ _ _ _ _ (assertAccountNotFrozen_ensures _ _ _ Ht' St')).
    split; [reflexivity|].
    intros r a Ha.
    destruct (sameLedgers_statusEnsured from w r a Ha) as (a1 & H1 & B1 & T1 & S1).
    destruct (sameLedgers_statusEnsured to (statusEnsured from w) r a1 H1)
      as (a2 & H2 & B2 & T2 & S2).
    exists a2. repeat split; congruence.
Qed.

Lemma transferMoneySafe_guard_witness :
  (exists w', transferMoneySafe 1%nat 2%nat (VNumber (ofZ 10)) worldMixed
              = (Throw frozenMessage, w')
              /\ sameLedgers worldMixed w')
  /\ transferMoneySafe 3%nat 1%nat (VNumber (ofZ 25)) worldPair
     = transferMoney 3%nat 1%nat (VNumber (ofZ 25))
                     (statusEnsured 1%nat (statusEnsured 3%nat worldPair)).
Proof.
  split.
  - apply (transferMoneySafe_guard worldMixed 1%nat 2%nat account100 accountFrozen);
      [vm_compute; reflexivity | vm_compute; reflexivity | now right].
  - apply (transferMoneySafe_guard worldPair 3%nat 1%nat account300 account100);
      [vm_compute; reflexivity | vm_compute; reflexivity | discriminate | discriminate].
Defined.

(* ===================================================================== *)
(** * The daily limit, further *)
(* ===================================================================== *)

(** X14.  [withdrawalWithDailyLimit] on a frozen account raises the
    frozen-account error whatever the amount and changes nothing; on an
    account that is not frozen an amount that is not a number above zero
    is refused with the message of the amount, and balance, transactions
    and state stay. *)
Theorem withdrawalWithDailyLimit_refuses (w : world) (r : ref) (a : account) (v : value) :
  objects w !! r = Some a ->
  (Account.status a = Some FROZEN ->
   withdrawalWithDailyLimit r v w = (Throw frozenMessage, w))
  /\ (Account.status a <> Some FROZEN -> validAmount v = None ->
      exists msg,
        withdrawalWithDailyLimit r v w = (Throw msg, statusEnsured r w)
        /\ (msg = "Withdrawal amount must be a number."
            \/ msg = "Withdrawal amount must be greater than zero.")
        /\ sameLedgers w (statusEnsured r w)).
Proof.
  intros H. split.
  - intros S. unfold withdrawalWithDailyLimit.
    now rewrite (bind_throw _ _ _ _ _ (assertAccountNotFrozen_frozen _ _ _ H S)).
  - intros S V. unfold withdrawalWithDailyLimit.
    rewrite (bind_return _ _ _ _ _ (assertAccountNotFrozen_ensures _ _ _ H S)).
    pose proof (requirePositiveNumber_run v "Withdrawal amount" (statusEnsured r w)) as R.
    rewrite V in R. destruct R as [msg R]. exists msg.
    split; [now rewrite (bind_throw _ _ _ _ _ R)|].
    split; [|apply sameLedgers_statusEnsured].
    now destruct (requirePositiveNumber_throws _ _ _ _ _ R) as (_ & _ & C).
Qed.

Lemma withdrawalWithDailyLimit_refuses_witness :
  withdrawalWithDailyLimit 0%nat (VNumber (ofZ 10)) worldFrozen
  = (Throw frozenMessage, worldFrozen)
  /\ exists msg,
      withdrawalWithDailyLimit 0%nat (VNumber (ofZ 0)) world100
      = (Throw msg, statusEnsured 0%nat world100)
      /\ (msg = "Withdrawal amount must be a number."
          \/ msg = "Withdrawal amount must be greater than zero.").
Proof.
  split.
  - apply (withdrawalWithDailyLimit_refuses worldFrozen 0%nat accountFrozen);
      [vm_compute; reflexivity | reflexivity].
  - destruct (withdrawalWithDailyLimit_refuses world100 0%nat account100 (VNumber (ofZ 0)))
      as [_ H]; [vm_compute; reflexivity|].
    destruct H as (msg & R & M & _); [discriminate | vm_compute; reflexivity |].
    exists msg. split; assumption.
Defined.




(* ===================================================================== *)
(** * Suspicious activity, further *)
(* ===================================================================== *)

Lemma highValueAlerts_map l :
  highValueAlerts l
  = map (fun t => HighValue (Tx.amount t) (kindOf (Tx.type t)))
        (List.filter (fun t => gtb (Tx.amount t) (ofZ 10000)) l).
Proof.
  unfold highValueAlerts. induction l as [|t l IH]; [reflexivity|].
  cbn [flat_map List.filter]. rewrite IH.
  now destruct (gtb (Tx.amount t) (ofZ 10000)).
Qed.

Lemma scanWindow_rapid ms i rest : forall j al,
  scanWindow ms i j rest = Some al ->
  exists count minutes, al = RapidWithdrawals count minutes.
Proof.
  induction rest as [|[t ms'] rest IH]; intros j al; simpl; [discriminate|].
  destruct (spanLe _ _); [intros [= <-]; eauto|].
  destruct (spanGt _ _); [discriminate|]. apply IH.
Qed.

Lemma scanFrom_rapid small rest : forall i al,
  scanFrom small i rest = Some al ->
  exists count minutes, al = RapidWithdrawals count minutes.
Proof.
  induction rest as [|[t ms] rest IH]; intros i al; simpl; [discriminate|].
  destruct (scanWindow ms i (i + 2) (drop (i + 2) small)) as [al'|] eqn:W.
  - intros [= <-]. now apply (scanWindow_rapid _ _ _ _ _ W).
  - apply IH.
Qed.

(** X16.  [checkForSuspiciousActivity] only reads: balance, transactions
    and state of the account are as before.  Its alerts are one
    high-value alert for each transaction above 10000, in ledger order,
    followed by at most one rapid-withdrawal alert, and [isSuspicious]
    tells whether there is any alert. *)
Theorem checkForSuspiciousActivity_report (w : world) (r : ref) (a : account) :
  objects w !! r = Some a ->
  exists report w' rapid,
    checkForSuspiciousActivity r w = (Return report, w')
    /\ sameLedgers w w'
    /\ Report.alerts report
       = map (fun t => HighValue (Tx.amount t) (kindOf (Tx.type t)))
             (List.filter (fun t => gtb (Tx.amount t) (ofZ 10000)) (Account.txs a))
           ++ rapid
    /\ (rapid = [] \/ exists count minutes, rapid = [RapidWithdrawals count minutes])
    /\ (Report.isSuspicious report = true <-> Report.alerts report <> []).
Proof.
  intros H. eexists _, _, (rapidAlerts (smallWithdrawals (dateParse w) (Account.txs a))).
  split; [apply (checkForSuspiciousActivity_run _ _ _ H)|]. cbv zeta.
  split; [|split; [|split]].
  - intros r' b Hb. destruct (decide (r = r')) as [<-|Hne].
    + rewrite lookup_store. eexists. split; [reflexivity|].
      assert (b = a) as -> by congruence. now repeat split.
    + rewrite (lookup_store_ne _ _ _ _ Hne). now exists b.
  - cbn [Report.alerts]. now rewrite highValueAlerts_map.
  - unfold rapidAlerts. destruct (scanFrom _ 0 _) as [al|] eqn:S; [|now left].
    right. destruct (scanFrom_rapid _ _ _ _ S) as (count & minutes & ->).
    now exists count, minutes.
  - cbn [Report.isSuspicious Report.alerts].
    destruct (highValueAlerts (Account.txs a) ++ rapidAlerts _) as [|x l]; simpl.
    + split; [discriminate | congruence].
    + split; [discriminate|]. intros _. apply Z.ltb_lt. lia.
Qed.

Lemma checkForSuspiciousActivity_report_witness :
  exists report w',
    checkForSuspiciousActivity 0%nat worldLarge = (Return report, w')
    /\ sameLedgers worldLarge w'
    /\ Report.alerts report = [HighValue (ofZ 15000) "deposit"]
    /\ Report.isSuspicious report = true.
Proof.
  destruct (checkForSuspiciousActivity_report worldLarge 0%nat accountLarge)
    as (report & w' & rapid & R & L & _ & _ & _); [vm_compute; reflexivity|].
  exists report, w'. split; [exact R|]. split; [exact L|].
  assert (fst (checkForSuspiciousActivity 0%nat worldLarge)
          = Return (Report.Make true [HighValue (ofZ 15000) "deposit"])) as E
      by (vm_compute; reflexivity).
  rewrite R in E. simpl in E. injection E as ->. split; reflexivity.
Defined.

Lemma drop_cons_lookup {A} (l : list A) i e rest :
  drop i l = e :: rest -> l !! i = Some e /\ drop (S i) l = rest.
Proof.
  intros D. split.
  - rewrite <- (Nat.add_0_r i), <- lookup_drop, D. reflexivity.
  - replace (S i) with (i + 1)%nat by lia. rewrite <- drop_drop, D. reflexivity.
Qed.

Lemma drop_nil_lookup {A} (l : list A) i k :
  drop i l = [] -> (i <= k)%nat -> l !! k = None.
Proof.
  intros D L. apply lookup_ge_None.
  assert (List.length (drop i l) = 0%nat) as E by now rewrite D.
  rewrite length_drop in E. lia.
Qed.

Lemma timed_lookup small k e :
  Forall timed small -> small !! k = Some e -> exists t x, e = (t, Some x).
Proof.
  intros F H. rewrite List.Forall_forall in F.
  assert (timed e) as T by (apply F, list_elem_of_In, list_elem_of_lookup; eauto).
  destruct e as [t [x|]]; [eauto | now destruct T].
Qed.

Lemma scanFrom_first_window small :
  Forall timed small ->
  forall rest i, rest = drop i small ->
    match scanFrom small i rest with
    | Some al =>
        exists k x y,
          windowAt small k x y
          /\ (forall k' x' y', (i <= k' < k)%nat -> ~ windowAt small k' x' y')
          /\ (i <= k)%nat
          /\ al = RapidWithdrawals 3 (Z.max 1 (roundDiv (y - x) 60000))
    | None => forall k x y, (i <= k)%nat -> ~ windowAt small k x y
    end.
Proof.
  intros F. induction rest as [|[t ms_i] rest IH]; intros i D.
  - simpl. intros k x y L (t1 & t2 & H1 & _).
    pose proof (drop_nil_lookup _ _ _ (eq_sym D) L) as N. congruence.
  - destruct (drop_cons_lookup _ _ _ _ (eq_sym D)) as [Hi Dr].
    destruct (timed_lookup _ _ _ F Hi) as (t0 & x & [= -> ->]).
    specialize (IH (S i) (eq_sym Dr)).
    cbn [scanFrom].
    assert ((exists t' y, small !! (i + 2)%nat = Some ((t', Some y) : entry)
                          /\ scanWindow (Some x) i (i + 2) (drop (i + 2) small)
                             = if y - x <=? windowMs
                               then Some (RapidWithdrawals
                                            (Z.of_nat (i + 2) - Z.of_nat i + 1)
                                            (Z.max 1 (roundDiv (y - x) 60000)))
                               else None)
            \/ (small !! (i + 2)%nat = None
                /\ scanWindow (Some x) i (i + 2) (drop (i + 2) small) = None)) as C.
    { destruct (drop (i + 2) small) as [|[t' ms_j] rest2] eqn:D2.
      - right. split; [|reflexivity]. apply (drop_nil_lookup _ _ _ D2). lia.
      - left. destruct (drop_cons_lookup _ _ _ _ D2) as [Hj _].
        destruct (timed_lookup _ _ _ F Hj) as (t1 & y & [= -> ->]).
        exists t1, y. split; [assumption|]. simpl.
        destruct (y - x <=? windowMs) eqn:L; [reflexivity|].
        apply Z.leb_gt in L. apply Z.ltb_lt in L. now rewrite L. }
    assert (forall x' y', windowAt small i x' y' ->
              exists t' y, small !! (i + 2)%nat = Some ((t', Some y) : entry)
                           /\ x' = x /\ y' = y /\ y - x <= windowMs) as Inv.
    { intros x' y' (t1 & t2 & H1 & H2 & L). rewrite Hi in H1.
      injection H1 as <- <-. exists t2, y'. now repeat split. }
    destruct C as [(t' & y & Hj & ->) | [Hj ->]].
    + destruct (y - x <=? windowMs) eqn:L.
      * apply Z.leb_le in L. exists i, x, y.
        split; [eexists _, _; split; [exact Hi | split; [exact Hj | exact L]]|].
        split; [intros; lia|]. split; [lia|]. do 2 f_equal. lia.
      * apply Z.leb_gt in L.
        assert (forall x' y', ~ windowAt small i x' y') as No.
        { intros x' y' Hw. destruct (Inv _ _ Hw) as (t2 & y2 & Hj2 & _ & _ & L2).
          rewrite Hj in Hj2. injection Hj2 as <- <-. lia. }
        destruct (scanFrom small (S i) rest) as [al|].
        -- destruct IH as (k & x0 & y0 & Hw & Min & Le & ->).
           exists k, x0, y0. split; [assumption|]. split; [|split; [lia | reflexivity]].
           intros k' x' y' Hk. destruct (decide (k' = i)) as [->|Hne];
             [apply No | apply Min; lia].
        -- intros k x0 y0 Hk. destruct (decide (k = i)) as [->|Hne];
             [apply No | apply IH; lia].
    + assert (forall x' y', ~ windowAt small i x' y') as No.
      { intros x' y' Hw. destruct (Inv _ _ Hw) as (t2 & y2 & Hj2 & _).
        rewrite Hj in Hj2. discriminate. }
      destruct (scanFrom small (S i) rest) as [al|].
      * destruct IH as (k & x0 & y0 & Hw & Min & Le & ->).
        exists k, x0, y0. split; [assumption|]. split; [|split; [lia | reflexivity]].
        intros k' x' y' Hk. destruct (decide (k' = i)) as [->|Hne];
          [apply No | apply Min; lia].
      * intros k x0 y0 Hk. destruct (decide (k = i)) as [->|Hne];
          [apply No | apply IH; lia].
Qed.

(** X17.  When the dates of the small withdrawals parse, the scan works on
    the small withdrawals in ascending order of time and raises the
    rapid-withdrawal alert exactly when some withdrawal and the second one
    after it are at most five minutes apart; the alert is that of the
    earliest such pair and reports their distance in minutes, rounded, at
    least 1. *)
Theorem rapid_alert_first_window (w : world) (r : ref) (a : account) :
  objects w !! r = Some a ->
  (forall t, In t (Account.txs a) -> isSmallWithdrawal t = true ->
             dateParse w (Tx.date t) <> None) ->
  let small := smallWithdrawals (dateParse w) (Account.txs a) in
  exists report w',
    checkForSuspiciousActivity r w = (Return report, w')
    /\ StronglySorted (fun e1 e2 => exists x y, snd e1 = Some x /\ snd e2 = Some y /\ x <= y)
                      small
    /\ Permutation (map fst small) (List.filter isSmallWithdrawal (Account.txs a))
    /\ ((exists count minutes,
            In (RapidWithdrawals count minutes) (Report.alerts report))
        <-> exists k x y, windowAt small k x y)
    /\ (forall count minutes,
           In (RapidWithdrawals count minutes) (Report.alerts report) ->
           exists k x y,
             windowAt small k x y
             /\ (forall k' x' y', (k' < k)%nat -> ~ windowAt small k' x' y')
             /\ minutes = Z.max 1 (roundDiv (y - x) 60000)).
Proof.
  intros H P small.
  assert (Forall timed small) as F.
  { apply List.Forall_forall. intros e He. unfold small, smallWithdrawals in He.
    apply (Permutation_in _ (sortBy_perm _ _)) in He.
    apply in_map_iff in He as (t & <- & Ht). apply filter_In in Ht as [Ht Hs].
    unfold timed; simpl. now apply P. }
  pose proof (scanFrom_first_window small F small 0 eq_refl) as Scan.
  eexists _, _. split; [apply (checkForSuspiciousActivity_run _ _ _ H)|].
  cbv zeta. cbn [Report.alerts]. fold small.
  assert (forall c m, In (RapidWithdrawals c m)
                         (highValueAlerts (Account.txs a) ++ rapidAlerts small)
                      <-> scanFrom small 0 small = Some (RapidWithdrawals c m)) as A.
  { intros c m. rewrite in_app_iff. unfold rapidAlerts. split.
    - intros [Hh|Hr]; [now apply highValueAlerts_kind in Hh|].
      destruct (scanFrom small 0 small); [|contradiction].
      destruct Hr as [->|[]]. reflexivity.
    - intros ->. right. now left. }
  split; [|split; [|split]].
  - apply (StronglySorted_weaken
             (fun e1 e2 => - default 0 (snd e2) <= - default 0 (snd e1))).
    + intros e1 e2 H1 H2 L.
      rewrite List.Forall_forall in F.
      pose proof (F e1 H1) as T1. pose proof (F e2 H2) as T2. unfold timed in T1, T2.
      destruct (snd e1) as [x|]; [|congruence]. destruct (snd e2) as [y|]; [|congruence].
      exists x, y. simpl in L. repeat split. lia.
    + unfold small, smallWithdrawals.
      apply (sortBy_sorted _ (fun e => - default 0 (snd e))).
      intros e1 e2 H1 H2.
      assert (forall e, In e (map (fun t => (t, dateParse w (Tx.date t)))
                                  (List.filter isSmallWithdrawal (Account.txs a)))
                        -> timed e) as T.
      { intros e He. apply in_map_iff in He as (t & <- & Ht).
        apply filter_In in Ht as [Ht Hs]. unfold timed; simpl. now apply P. }
      pose proof (T e1 H1) as T1. pose proof (T e2 H2) as T2. unfold timed in T1, T2.
      destruct (snd e1) as [x|]; [|congruence]. destruct (snd e2) as [y|]; [|congruence].
      simpl. f_equal. lia.
  - unfold small, smallWithdrawals. rewrite (sortBy_perm _ _).
    rewrite map_map. simpl. now rewrite map_id.
  - split.
    + intros (c & m & I). apply A in I. rewrite I in Scan.
      destruct Scan as (k & x & y & Hw & _). now exists k, x, y.
    + intros (k & x & y & Hw).
      destruct (scanFrom small 0 small) as [al|] eqn:S.
      * destruct Scan as (k0 & x0 & y0 & _ & _ & _ & ->).
        eexists _, _. apply A. reflexivity.
      * exfalso. apply (Scan k x y); [lia | exact Hw].
  - intros c m I. apply A in I. rewrite I in Scan.
    destruct Scan as (k & x & y & Hw & Min & _ & [= _ ->]).
    exists k, x, y. split; [assumption|]. split; [|reflexivity].
    intros k' x' y' Hk. apply Min. lia.
Qed.

Lemma rapid_alert_first_window_witness :
  exists report w',
    checkForSuspiciousActivity 0%nat worldCluster = (Return report, w')
    /\ (exists count minutes,
           In (RapidWithdrawals count minutes) (Report.alerts report))
    /\ exists k x y,
        windowAt (smallWithdrawals isoTime (Account.txs accountCluster)) k x y.
Proof.
  destruct (rapid_alert_first_window worldCluster 0%nat accountCluster)
    as (report & w' & R & _ & _ & I & _).
  - vm_compute; reflexivity.
  - intros t [<- | [<- | [<- | [<- | []]]]] _; vm_compute; discriminate.
  - exists report, w'. split; [exact R|].
    assert (exists k x y,
               windowAt (smallWithdrawals isoTime (Account.txs accountCluster)) k x y) as W.
    { exists 0%nat, 1767603600000, 1767603720000.
      eexists _, _. split; [vm_compute; reflexivity|].
      split; [vm_compute; reflexivity | vm_compute; discriminate]. }
    split; [apply I; exact W | exact W].
Defined.

(* ===================================================================== *)
(** * Retrieval: rejected options *)
(* ===================================================================== *)




(** The run of [retrieveTransactionsInRange] on an account object, for
    any options. *)
Lemma retrieveTransactionsInRange_total w r a o :
  objects w !! r = Some a ->
  retrieveTransactionsInRange r o w
  = (match boundaryOf (dateParse w) (Options.startDate o) false with
     | Throw m => Throw m
     | Return startMs =>
         match boundaryOf (dateParse w) (Options.endDate o) true with
         | Throw m => Throw m
         | Return endMs =>
             if inverted startMs endMs then Throw invertedMessage
             else match typeFilterOf (Options.type o) with
                  | Throw m => Throw m
                  | Return n =>
                      Return (sortBy (newestFirst (dateParse w))
                                     (List.filter (keeps (dateParse w) n startMs endMs)
                                                  (Account.txs a)))
                  end
         end
     end,
     store r (Account.set_transactions (Account.txs a) a) w).
Proof.
  intros H. unfold retrieveTransactionsInRange.
  step_with (isNullish_run _ _ _ H). step.
  unfold bind at 1. rewrite parseBoundaryMs_run. simpl dateParse.
  destruct (boundaryOf _ (Options.startDate o) false) as [s|m]; [|reflexivity].
  unfold bind at 1. rewrite parseBoundaryMs_run. simpl dateParse.
  destruct (boundaryOf _ (Options.endDate o) true) as [e|m]; [|reflexivity].
  fold (inverted s e). destruct (inverted s e); [reflexivity|].
  unfold bind. rewrite normalizeType_run.
  now destruct (typeFilterOf (Options.type o)).
Qed.



(** X19.  [retrieveTransactionsInRange] only reads: whatever the options
    and whether it returns or raises, the registry is the same and every
    object keeps its balance, its records and its state; on [null] or
    [undefined] it raises "Account is required." before anything else. *)
Theorem retrieveTransactionsInRange_reads_only (w : world) (r : ref) (o : options) :
  accounts (snd (retrieveTransactionsInRange r o w)) = accounts w
  /\ ticks (snd (retrieveTransactionsInRange r o w)) = ticks w
  /\ sameLedgers w (snd (retrieveTransactionsInRange r o w))
  /\ (objects w !! r = None ->
      retrieveTransactionsInRange r o w = (Throw "Account is required.", w)).
Proof.
  destruct (objects w !! r) as [a|] eqn:H.
  - rewrite (retrieveTransactionsInRange_total _ _ _ _ H). cbn [snd].
    split; [reflexivity|]. split; [reflexivity|]. split; [|discriminate].
    intros r' a' H'. destruct (decide (r' = r)) as [->|N].
    + rewrite lookup_store. eexists. split; [reflexivity|].
      assert (a' = a) as -> by congruence. now repeat split.
    + rewrite lookup_store_ne by congruence. exists a'. now repeat split.
  - assert (retrieveTransactionsInRange r o w = (Throw "Account is required.", w)) as E.
    { unfold retrieveTransactionsInRange, bind, isNullish. now rewrite H. }
    rewrite E. cbn [snd]. split; [reflexivity|]. split; [reflexivity|].
    split; [apply sameLedgers_refl | reflexivity].
Qed.

(* ===================================================================== *)
(** * Interest accrual, repeated *)
(* ===================================================================== *)





(* ===================================================================== *)
(** * Password validation *)
(* ===================================================================== *)







(* ===================================================================== *)
(** * Retrieval: the module and the browser bundle *)
(* ===================================================================== *)

(** X23.  The copy of [retrieveTransactionsInRange] in the browser bundle
    and the one of src/services/transactionService.js agree on all
    options but those whose [type] is the empty string: there the bundle
    answers as if no type was given, while the module raises an error
    (an error of the dates, or "Type is required."). *)
Theorem Bundle_retrieveTransactionsInRange_empty_type
        (w : world) (r : ref) (a : account) (o : options) :
  objects w !! r = Some a ->
  (Options.type o <> Some "" ->
   Bundle.retrieveTransactionsInRange r o w = retrieveTransactionsInRange r o w)
  /\ (Options.type o = Some "" ->
      Bundle.retrieveTransactionsInRange r o w
      = retrieveTransactionsInRange r (unfiltered o) w
      /\ exists m, fst (retrieveTransactionsInRange r o w) = Throw m
                   /\ (fst (Bundle.retrieveTransactionsInRange r o w) <> Throw m ->
                       m = "Type is required.")).
Proof.
  intros H.
  assert (forall w0, Options.type o <> Some "" ->
                     Bundle.normalizeType (Options.type o) w0
                     = normalizeType (Options.type o) w0) as Same.
  { intros w0 N. unfold Bundle.normalizeType, normalizeType.
    destruct (Options.type o) as [t|]; [|reflexivity].
    rewrite bool_decide_eq_false_2; [reflexivity|]. congruence. }
  assert (forall w0, Options.type o = Some "" ->
                     Bundle.normalizeType (Options.type o) w0 = (Return None, w0)) as Empty.
  { intros w0 ->. reflexivity. }
  split.
  - intros N. unfold Bundle.retrieveTransactionsInRange, retrieveTransactionsInRange.
    unfold bind. destruct (isNullish r w) as [[[]|] ?]; try reflexivity.
    destruct (ensureTransactions r w0) as [[?|] ?]; try reflexivity.
    destruct (parseBoundaryMs _ false w1) as [[?|] ?]; try reflexivity.
    destruct (parseBoundaryMs _ true w2) as [[?|] ?]; try reflexivity.
    destruct (match _ with Some _ => _ | None => _ end); try reflexivity.
    now rewrite Same.
  - intros E. split.
    + unfold Bundle.retrieveTransactionsInRange, retrieveTransactionsInRange.
      unfold bind. destruct (isNullish r w) as [[[]|] ?]; try reflexivity.
      destruct (ensureTransactions r w0) as [[?|] ?]; try reflexivity.
      cbn [unfiltered Options.startDate Options.endDate Options.type].
      destruct (parseBoundaryMs _ false w1) as [[?|] ?]; try reflexivity.
      destruct (parseBoundaryMs _ true w2) as [[?|] ?]; try reflexivity.
      destruct (match _ with Some _ => _ | None => _ end); try reflexivity.
      now rewrite Empty.
    + rewrite (retrieveTransactionsInRange_total _ _ _ _ H). cbn [fst].
      unfold Bundle.retrieveTransactionsInRange.
      step_with (isNullish_run _ _ _ H). step.
      unfold bind at 1. rewrite parseBoundaryMs_run. simpl dateParse.
      destruct (boundaryOf _ (Options.startDate o) false) as [s|m];
        [|exists m; split; [reflexivity | now intros N]].
      unfold bind at 1. rewrite parseBoundaryMs_run. simpl dateParse.
      destruct (boundaryOf _ (Options.endDate o) true) as [e|m];
        [|exists m; split; [reflexivity | now intros N]].
      fold (inverted s e). destruct (inverted s e);
        [eexists; split; [reflexivity | now intros N]|].
      rewrite E. simpl typeFilterOf. eexists. split; reflexivity.
Qed.

Lemma Bundle_retrieveTransactionsInRange_empty_type_witness :
  fst (Bundle.retrieveTransactionsInRange 0%nat (Options.Make None None (Some "")) worldNov)
  = fst (retrieveTransactionsInRange 0%nat (Options.Make None None None) worldNov)
  /\ fst (retrieveTransactionsInRange 0%nat (Options.Make None None (Some "")) worldNov)
     = Throw "Type is required.".
Proof.
  destruct (Bundle_retrieveTransactionsInRange_empty_type
              worldNov 0%nat accountNov (Options.Make None None (Some "")))
    as [_ B]; [vm_compute; reflexivity|].
  destruct (B eq_refl) as [E (m & T & M)].
  split; [now rewrite E|].
  rewrite T. f_equal. apply M. rewrite E. vm_compute. discriminate.
Defined.

